(** * Alexa smart-home sample Lambda: a shallow embedding of [lambda.py]

    The handler receives a JSON request, finds out which generation of the
    Smart Home API it belongs to, drives the air-conditioner remote and the
    environment monitor, and answers with a JSON response.  Requests and
    responses are Python values; the collaborators ([ac_remote],
    [env_monitor], [uuid], [time], [logger], [print]) are external calls of a
    small free monad, so that a handler is a tree of calls whose replies are
    chosen by whoever runs it.  The reading that [env_monitor.py] fetches
    from the table is the reply to [EnvGetTemperature]. *)

From Stdlib Require Import String List ZArith Bool Lia DecimalString.
From Stdlib Require Import PrimFloat.
From Stdlib Require SpecFloat FloatOps.
Import ListNotations.
Open Scope string_scope.
Set Warnings "-register-all".

(** ** Python values *)

(** The JSON fragment of Python's values.  A dict is kept as the list of its
    items in insertion order, which is also the order in which a dict literal
    evaluates its entries.  An [int] is unbounded, a [float] is a binary64
    number. *)
Inductive value : Type :=
| VNone
| VBool (b : bool)
| VInt (z : Z)
| VFloat (f : PrimFloat.float)
| VStr (s : string)
| VList (l : list value)
| VDict (d : list (string * value)).

Inductive exn : Type :=
| KeyError (key : string)
| TypeError
| UnboundLocalError (name : string)
| ValueError (msg : string)
| OverflowError
| ExternalError (name : string).

Inductive res (A : Type) : Type :=
| Ok (a : A)
| Err (e : exn).
Arguments Ok {A} a.
Arguments Err {A} e.

Definition is_error {A} (r : res A) : bool :=
  match r with Ok _ => false | Err _ => true end.

Fixpoint assoc (k : string) (d : list (string * value)) : option value :=
  match d with
  | [] => None
  | (k', v) :: d' => if String.eqb k k' then Some v else assoc k d'
  end.

(** [v == "lit"] for a string literal on the right. *)
Definition eq_str (v : value) (s : string) : bool :=
  match v with VStr s' => String.eqb s' s | _ => false end.

(** Reading along a path of keys, [None] where Python would raise. *)
Definition lookup (k : string) (v : value) : option value :=
  match v with VDict d => assoc k d | _ => None end.

Fixpoint path (ks : list string) (v : value) : option value :=
  match ks with
  | [] => Some v
  | k :: ks' => match lookup k v with Some v' => path ks' v' | None => None end
  end.

(** ** External calls and programs *)

Inductive logmsg : Type :=
| LogStr (s : string)
| LogJson (v : value)        (* json.dumps(v, indent=4, sort_keys=True) *)
| LogExn (e : exn).

Inductive call : Type :=
| AcSetPowerOn
| AcSetPowerOff
| AcSetTemperature (t : value)
| AcSetModeHeat
| AcSetModeCool
| AcGetPower
| AcGetTemperature
| AcGetMode
| EnvGetTemperature
| Uuid4Str                    (* str(uuid.uuid4()) *)
| TimeGmtime (seconds : value)
| TimeStrftime (fmt : string) (t : value)
| LoggerInfo (m : logmsg)
| LoggerError (m : logmsg)
| PrintLine (v : value).

(** The calls that change the state of the device. *)
Definition is_mutator (c : call) : bool :=
  match c with
  | AcSetPowerOn | AcSetPowerOff | AcSetTemperature _
  | AcSetModeHeat | AcSetModeCool => true
  | _ => false
  end.

Inductive prog (A : Type) : Type :=
| Ret (a : A)
| Raise (e : exn)
| Call (c : call) (k : res value -> prog A).
Arguments Ret {A} a.
Arguments Raise {A} e.
Arguments Call {A} c k.

Fixpoint bind {A B} (m : prog A) (f : A -> prog B) : prog B :=
  match m with
  | Ret a => f a
  | Raise e => Raise e
  | Call c k => Call c (fun r => bind (k r) f)
  end.

Declare Scope prog_scope.
Delimit Scope prog_scope with prog.
Notation "x <- m ;; k" := (bind m (fun x => k))
  (at level 61, m at next level, right associativity) : prog_scope.
Notation "m ;;; k" := (bind m (fun _ => k))
  (at level 61, right associativity) : prog_scope.
Open Scope prog_scope.

(** An external call; an exception of the callee is raised in the caller. *)
Definition ext (c : call) : prog value :=
  Call c (fun r => match r with Ok v => Ret v | Err e => Raise e end).

(** [try: m except: h] with a filter on the exception; the bare [except:] is
    the filter that accepts everything. *)
Fixpoint try_except {A} (m : prog A) (catches : exn -> bool)
         (h : exn -> prog A) : prog A :=
  match m with
  | Ret a => Ret a
  | Raise e => if catches e then h e else Raise e
  | Call c k => Call c (fun r => try_except (k r) catches h)
  end.

Definition any_exn (_ : exn) : bool := true.

Definition is_ValueError (e : exn) : bool :=
  match e with ValueError _ => true | _ => false end.

(** [v[k]] for a string key [k]. *)
Definition getitem (v : value) (k : string) : prog value :=
  match v with
  | VDict d => match assoc k d with
               | Some x => Ret x
               | None => Raise (KeyError k)
               end
  | _ => Raise TypeError
  end.

(** A [bool] is an [int]. *)
Definition int_of (v : value) : option Z :=
  match v with
  | VInt z => Some z
  | VBool b => Some (if b then 1%Z else 0%Z)
  | _ => None
  end.

(** [float(z)]: the nearest binary64 number, ties to even; an [int] beyond
    the range of the finite ones raises OverflowError. *)
Definition float_of_int (z : Z) : prog PrimFloat.float :=
  match SpecFloat.binary_normalize FloatOps.prec FloatOps.emax z 0 false with
  | SpecFloat.S754_infinity _ => Raise OverflowError
  | sf => Ret (FloatOps.SF2Prim sf)
  end.

(** [a + b] *)
Definition py_add (a b : value) : prog value :=
  match a, b with
  | VStr s, VStr t => Ret (VStr (s ++ t))
  | VList l, VList m => Ret (VList (l ++ m)%list)
  | VFloat x, VFloat y => Ret (VFloat (PrimFloat.add x y))
  | VFloat x, _ =>
      match int_of b with
      | Some z => y <- float_of_int z ;; Ret (VFloat (PrimFloat.add x y))
      | None => Raise TypeError
      end
  | _, VFloat y =>
      match int_of a with
      | Some z => x <- float_of_int z ;; Ret (VFloat (PrimFloat.add x y))
      | None => Raise TypeError
      end
  | _, _ =>
      match int_of a, int_of b with
      | Some x, Some y => Ret (VInt (x + y))
      | _, _ => Raise TypeError
      end
  end.

(** ** Running a program *)

Section Run.
Context {W : Type}.
Variable h : call -> W -> res value * W.

Fixpoint run {A} (p : prog A) (w : W) : res A * W :=
  match p with
  | Ret a => (Ok a, w)
  | Raise e => (Err e, w)
  | Call c k => let '(r, w') := h c w in run (k r) w'
  end.

(** The calls a run makes, in order. *)
Fixpoint trace {A} (p : prog A) (w : W) : list call :=
  match p with
  | Call c k => let '(r, w') := h c w in c :: trace (k r) w'
  | _ => []
  end.
End Run.

(** A collaborator that never fails. *)
Definition reliable {W} (h : call -> W -> res value * W) : Prop :=
  forall c w, is_error (fst (h c w)) = false.

(** ** lambda.py *)

Definition SAMPLE_APPLIANCES : list value :=
  [ VDict
      [ ("applianceId", VStr "endpoint-004");
        ("manufacturerName", VStr "IR TEST (AC remote)");
        ("modelName", VStr "Smart Thermostat");
        ("version", VStr "1");
        ("friendlyName", VStr "エアコン");
        ("friendlyDescription", VStr "自宅のエアコンのリモコン制御が可能");
        ("isReachable", VBool true);
        ("actions", VList
           [ VStr "setTargetTemperature";
             VStr "incrementTargetTemperature";
             VStr "decrementTargetTemperature";
             VStr "getTargetTemperature";
             VStr "getTemperatureReading" ]);
        ("additionalApplianceDetails", VDict []) ] ].

Definition get_utc_timestamp (seconds : value) : prog value :=
  t <- ext (TimeGmtime seconds) ;;
  ext (TimeStrftime "%Y-%m-%dT%H:%M:%S.00Z" t).

Definition get_uuid : prog value := ext Uuid4Str.

Definition get_directive_version (request : value) : prog value :=
  try_except
    (d <- getitem request "directive" ;;
     hd <- getitem d "header" ;;
     getitem hd "payloadVersion")
    any_exn
    (fun _ =>
       try_except
         (hd <- getitem request "header" ;;
          getitem hd "payloadVersion")
         any_exn
         (fun _ => Ret (VStr "-1"))).

Definition get_display_categories_from_v2_appliance (appliance : value)
  : prog value :=
  model_name <- getitem appliance "modelName" ;;
  Ret (if eq_str model_name "Smart Thermostat"
       then VList [VStr "THERMOSTAT"]
       else VList [VStr "OTHER"]).

Definition interface_capability (interface : string) (supported : list string)
  : list (string * value) :=
  [ ("type", VStr "AlexaInterface");
    ("interface", VStr interface);
    ("version", VStr "3");
    ("properties", VDict
       [ ("supported",
          VList (map (fun n => VDict [("name", VStr n)]) supported));
         ("proactivelyReported", VBool true);
         ("retrievable", VBool true) ]) ].

Definition thermostat_controller_capability : value :=
  VDict (interface_capability "Alexa.ThermostatController"
           ["targetSetpoint"; "thermostatMode"]
         ++ [ ("configuration", VDict
                 [ ("supportedModes", VList [VStr "HEAT"; VStr "COOL"]);
                   ("supportsScheduling", VBool false) ]) ])%list.

Definition power_controller_capability : value :=
  VDict (interface_capability "Alexa.PowerController" ["powerState"]).

Definition temperature_sensor_capability : value :=
  VDict (interface_capability "Alexa.TemperatureSensor" ["temperature"]).

Definition endpoint_health_capability : value :=
  VDict (interface_capability "Alexa.EndpointHealth" ["connectivity"]).

Definition alexa_interface_capability : value :=
  VDict [ ("type", VStr "AlexaInterface");
          ("interface", VStr "Alexa");
          ("version", VStr "3") ].

Definition get_capabilities_from_v2_appliance (appliance : value)
  : prog value :=
  model_name <- getitem appliance "modelName" ;;
  let capabilities :=
    if eq_str model_name "Smart Thermostat"
    then [ thermostat_controller_capability;
           power_controller_capability;
           temperature_sensor_capability ]
    else [ power_controller_capability ] in
  let capabilities := (capabilities ++ [endpoint_health_capability])%list in
  let capabilities := (capabilities ++ [alexa_interface_capability])%list in
  Ret (VList capabilities).

(** [d[k] = v] on the items of a dict whose key [k] is present. *)
Fixpoint setitem (k : string) (v : value) (d : list (string * value))
  : list (string * value) :=
  match d with
  | [] => [(k, v)]
  | (k', v') :: d' =>
      if String.eqb k k' then (k', v) :: d' else (k', v') :: setitem k v d'
  end.

Definition get_endpoint_from_v2_appliance (appliance : value) : prog value :=
  applianceId <- getitem appliance "applianceId" ;;
  manufacturerName <- getitem appliance "manufacturerName" ;;
  friendlyName <- getitem appliance "friendlyName" ;;
  friendlyDescription <- getitem appliance "friendlyDescription" ;;
  cookie <- getitem appliance "additionalApplianceDetails" ;;
  let endpoint :=
    [ ("endpointId", applianceId);
      ("manufacturerName", manufacturerName);
      ("friendlyName", friendlyName);
      ("description", friendlyDescription);
      ("displayCategories", VList []);
      ("cookie", cookie);
      ("capabilities", VList []) ] in
  displayCategories <- get_display_categories_from_v2_appliance appliance ;;
  let endpoint := setitem "displayCategories" displayCategories endpoint in
  capabilities <- get_capabilities_from_v2_appliance appliance ;;
  let endpoint := setitem "capabilities" capabilities endpoint in
  Ret (VDict endpoint).

(** *** v2 handlers *)

Definition handle_discovery : prog value :=
  messageId <- get_uuid ;;
  let header :=
    VDict [ ("namespace", VStr "Alexa.ConnectedHome.Discovery");
            ("name", VStr "DiscoverAppliancesResponse");
            ("payloadVersion", VStr "2");
            ("messageId", messageId) ] in
  let payload := VDict [ ("discoveredAppliances", VList SAMPLE_APPLIANCES) ] in
  Ret (VDict [ ("header", header); ("payload", payload) ]).

Definition confirmation_header (name : string) : prog value :=
  messageId <- get_uuid ;;
  Ret (VDict [ ("namespace", VStr "Alexa.ConnectedHome.Control");
               ("name", VStr name);
               ("payloadVersion", VStr "2");
               ("messageId", messageId) ]).

(** The local [header] is bound in two of the three branches only; reading
    it unbound raises [UnboundLocalError]. *)
Definition handle_non_discovery (request : value) : prog value :=
  hd <- getitem request "header" ;;
  request_name <- getitem hd "name" ;;
  header <- (if eq_str request_name "TurnOnRequest" then
               h <- confirmation_header "TurnOnConfirmation" ;; Ret (Some h)
             else if eq_str request_name "TurnOffRequest" then
               h <- confirmation_header "TurnOffConfirmation" ;; Ret (Some h)
             else Ret None) ;;
  let payload := VDict [] in
  match header with
  | Some header => Ret (VDict [ ("header", header); ("payload", payload) ])
  | None => Raise (UnboundLocalError "header")
  end.

(** *** v3 handlers *)

Fixpoint for_each (f : value -> prog value) (l : list value)
  : prog (list value) :=
  match l with
  | [] => Ret []
  | x :: l' => y <- f x ;; ys <- for_each f l' ;; Ret (y :: ys)
  end.

Definition handle_discovery_v3 (request : value) : prog value :=
  endpoints <- for_each get_endpoint_from_v2_appliance SAMPLE_APPLIANCES ;;
  messageId <- get_uuid ;;
  Ret (VDict
    [ ("event", VDict
        [ ("header", VDict
            [ ("namespace", VStr "Alexa.Discovery");
              ("name", VStr "Discover.Response");
              ("payloadVersion", VStr "3");
              ("messageId", messageId) ]);
          ("payload", VDict [ ("endpoints", VList endpoints) ]) ]) ]).

(** One entry of [context.properties]: the value is computed first, the
    time of the sample after it. *)
Definition property_state (namespace name : string) (sample : prog value)
  : prog value :=
  v <- sample ;;
  timeOfSample <- get_utc_timestamp VNone ;;
  Ret (VDict [ ("namespace", VStr namespace);
               ("name", VStr name);
               ("value", v);
               ("timeOfSample", timeOfSample);
               ("uncertaintyInMilliseconds", VInt 0) ]).

Definition celsius_value (v : value) : value :=
  VDict [ ("value", v); ("scale", VStr "CELSIUS") ].

Definition celsius (sample : prog value) : prog value :=
  v <- sample ;;
  Ret (celsius_value v).

Definition directive_header (request : value) (k : string) : prog value :=
  d <- getitem request "directive" ;;
  hd <- getitem d "header" ;;
  getitem hd k.

Definition directive_endpoint_id (request : value) : prog value :=
  d <- getitem request "directive" ;;
  e <- getitem d "endpoint" ;;
  getitem e "endpointId".

Definition directive_payload (request : value) (k1 k2 : string) : prog value :=
  d <- getitem request "directive" ;;
  p <- getitem d "payload" ;;
  x <- getitem p k1 ;;
  getitem x k2.

Definition power_controller_response (request : value) (v : string)
  : prog value :=
  p <- property_state "Alexa.PowerController" "powerState" (Ret (VStr v)) ;;
  messageId <- get_uuid ;;
  correlationToken <- directive_header request "correlationToken" ;;
  endpointId <- directive_endpoint_id request ;;
  Ret (VDict
    [ ("context", VDict [ ("properties", VList [p]) ]);
      ("event", VDict
        [ ("header", VDict
            [ ("namespace", VStr "Alexa");
              ("name", VStr "Response");
              ("payloadVersion", VStr "3");
              ("messageId", messageId);
              ("correlationToken", correlationToken) ]);
          ("endpoint", VDict
            [ ("scope", VDict
                [ ("type", VStr "BearerToken");
                  ("token", VStr "access-token-from-Amazon") ]);
              ("endpointId", endpointId) ]);
          ("payload", VDict []) ]) ]).

Definition event_block (request : value) (name : string) : prog value :=
  messageId <- get_uuid ;;
  correlationToken <- directive_header request "correlationToken" ;;
  endpointId <- directive_endpoint_id request ;;
  Ret (VDict
    [ ("header", VDict
        [ ("namespace", VStr "Alexa");
          ("name", VStr name);
          ("messageId", messageId);
          ("correlationToken", correlationToken);
          ("payloadVersion", VStr "3") ]);
      ("endpoint", VDict [ ("endpointId", endpointId) ]);
      ("payload", VDict []) ]).

Definition thermostat_controller_response (request : value) : prog value :=
  event <- event_block request "Response" ;;
  p1 <- property_state "Alexa.ThermostatController" "thermostatMode"
          (ext AcGetMode) ;;
  p2 <- property_state "Alexa.ThermostatController" "targetSetpoint"
          (celsius (ext AcGetTemperature)) ;;
  p3 <- property_state "Alexa.TemperatureSensor" "temperature"
          (celsius (ext EnvGetTemperature)) ;;
  Ret (VDict
    [ ("event", event);
      ("context", VDict [ ("properties", VList [p1; p2; p3]) ]) ]).

Definition state_report (request : value) : prog value :=
  event <- event_block request "StateReport" ;;
  p1 <- property_state "Alexa.ThermostatController" "thermostatMode"
          (ext AcGetMode) ;;
  p2 <- property_state "Alexa.ThermostatController" "targetSetpoint"
          (celsius (ext AcGetTemperature)) ;;
  p3 <- property_state "Alexa.PowerController" "powerState"
          (ext AcGetPower) ;;
  p4 <- property_state "Alexa.TemperatureSensor" "temperature"
          (celsius (ext EnvGetTemperature)) ;;
  p5 <- property_state "Alexa.EndpointHealth" "connectivity"
          (Ret (VDict [ ("value", VStr "OK") ])) ;;
  Ret (VDict
    [ ("event", event);
      ("context", VDict [ ("properties", VList [p1; p2; p3; p4; p5]) ]) ]).

Definition accept_grant_response : prog value :=
  messageId <- get_uuid ;;
  Ret (VDict
    [ ("event", VDict
        [ ("header", VDict
            [ ("namespace", VStr "Alexa.Authorization");
              ("name", VStr "AcceptGrant.Response");
              ("payloadVersion", VStr "3");
              ("messageId", messageId) ]);
          ("payload", VDict []) ]) ]).

(** The mutation a ThermostatController directive asks for. *)
Definition thermostat_controller_action (request : value)
           (request_name : value) : prog unit :=
  if eq_str request_name "SetTargetTemperature" then
    request_temperature <- directive_payload request "targetSetpoint" "value" ;;
    ext (AcSetTemperature request_temperature) ;;; Ret tt
  else if eq_str request_name "AdjustTargetTemperature" then
    current <- ext AcGetTemperature ;;
    delta <- directive_payload request "targetSetpointDelta" "value" ;;
    request_temperature <- py_add current delta ;;
    ext (AcSetTemperature request_temperature) ;;; Ret tt
  else if eq_str request_name "SetThermostatMode" then
    request_mode <- directive_payload request "thermostatMode" "value" ;;
    if eq_str request_mode "HEAT" then ext AcSetModeHeat ;;; Ret tt
    else if eq_str request_mode "COOL" then ext AcSetModeCool ;;; Ret tt
    else Ret tt
  else Ret tt.

(** A function whose last statement is not a [return] returns [None]. *)
Definition handle_non_discovery_v3 (request : value) : prog value :=
  request_namespace <- directive_header request "namespace" ;;
  request_name <- directive_header request "name" ;;
  if eq_str request_namespace "Alexa.PowerController" then
    (if eq_str request_name "TurnOn"
     then ext AcSetPowerOn ;;; power_controller_response request "ON"
     else ext AcSetPowerOff ;;; power_controller_response request "OFF")
  else if eq_str request_namespace "Alexa.ThermostatController" then
    thermostat_controller_action request request_name ;;;
    thermostat_controller_response request
  else if eq_str request_namespace "Alexa" then
    (if eq_str request_name "ReportState"
     then state_report request
     else Ret VNone)
  else if eq_str request_namespace "Alexa.Authorization" then
    (if eq_str request_name "AcceptGrant" then
       code <- directive_payload request "grant" "code" ;;
       line <- py_add
                 (VStr "====== AcceptGrant directive is called. Your authorization code is :")
                 code ;;
       ext (PrintLine line) ;;;
       accept_grant_response
     else Ret VNone)
  else Ret VNone.

(** *** The entry point *)

(** The two arms of the version test in [lambda_handler]. *)
Definition v3_branch (request : value) : prog value :=
  ext (LoggerInfo (LogStr "Received v3 directive!")) ;;;
  name <- directive_header request "name" ;;
  if eq_str name "Discover"
  then handle_discovery_v3 request
  else handle_non_discovery_v3 request.

Definition v2_branch (request : value) : prog value :=
  ext (LoggerInfo (LogStr "Received v2 directive!")) ;;;
  hd <- getitem request "header" ;;
  namespace <- getitem hd "namespace" ;;
  if eq_str namespace "Alexa.ConnectedHome.Discovery"
  then handle_discovery
  else handle_non_discovery request.

Definition lambda_handler (request context : value) : prog value :=
  try_except
    (ext (LoggerInfo (LogStr "Directive:")) ;;;
     ext (LoggerInfo (LogJson request)) ;;;
     version <- get_directive_version request ;;
     response <-
       (if eq_str version "3" then v3_branch request else v2_branch request) ;;
     ext (LoggerInfo (LogStr "Response:")) ;;;
     ext (LoggerInfo (LogJson response)) ;;;
     Ret response)
    is_ValueError
    (fun error => ext (LoggerError (LogExn error)) ;;; Raise error).

(** ** A test double for the collaborators *)

(** Modelled from the spec: the [AcRemote] class of [ac_remote.py] and the
    [EnvMonitor] class, which [lambda.py] imports and which are not part of
    the sources at hand.  Section 6 of the specification gives the facade:
    setters store, getters read back; the sensor returns the stored
    reading. *)
Record device : Type := Device {
  power : value;
  temperature : value;
  mode : value
}.

Record world : Type := World {
  dev : device;
  room : value;          (* the reading of the environment sensor *)
  now : string;          (* the formatted wall-clock time *)
  issued : nat           (* message identifiers handed out so far *)
}.

Definition set_dev (w : world) (d : device) : world :=
  World d (room w) (now w) (issued w).

Definition model_handler (c : call) (w : world) : res value * world :=
  let d := dev w in
  match c with
  | AcSetPowerOn =>
      (Ok VNone, set_dev w (Device (VStr "ON") (temperature d) (mode d)))
  | AcSetPowerOff =>
      (Ok VNone, set_dev w (Device (VStr "OFF") (temperature d) (mode d)))
  | AcSetTemperature t =>
      (Ok VNone, set_dev w (Device (power d) t (mode d)))
  | AcSetModeHeat =>
      (Ok VNone, set_dev w (Device (power d) (temperature d) (VStr "HEAT")))
  | AcSetModeCool =>
      (Ok VNone, set_dev w (Device (power d) (temperature d) (VStr "COOL")))
  | AcGetPower => (Ok (power d), w)
  | AcGetTemperature => (Ok (temperature d), w)
  | AcGetMode => (Ok (mode d), w)
  | EnvGetTemperature => (Ok (room w), w)
  | Uuid4Str =>
      (Ok (VStr ("uuid-" ++ NilEmpty.string_of_uint (Nat.to_uint (issued w)))),
       World d (room w) (now w) (S (issued w)))
  | TimeGmtime _ => (Ok (VStr (now w)), w)
  | TimeStrftime _ t => (Ok t, w)
  | LoggerInfo _ | LoggerError _ | PrintLine _ => (Ok VNone, w)
  end.

Definition world0 : world :=
  World (Device (VStr "OFF") (VFloat 25) (VStr "COOL")) (VFloat 27)
        "2026-01-01T00:00:00.00Z" 0.

(** Requests in the two shapes of section 6. *)
Definition v3_request (namespace name : string) (fields : list (string * value))
           (payload : value) : value :=
  VDict
    [ ("directive", VDict
        [ ("header", VDict
            ([ ("namespace", VStr namespace);
               ("name", VStr name);
               ("payloadVersion", VStr "3");
               ("messageId", VStr "msg-1") ] ++ fields)%list);
          ("endpoint", VDict [ ("endpointId", VStr "endpoint-004") ]);
          ("payload", payload) ]) ].

Definition v2_request (namespace name version : string) : value :=
  VDict
    [ ("header", VDict
        [ ("namespace", VStr namespace);
          ("name", VStr name);
          ("payloadVersion", VStr version);
          ("messageId", VStr "msg-1") ]);
      ("payload", VDict []) ].

Definition sample_switch : value :=
  VDict [ ("applianceId", VStr "endpoint-001");
          ("manufacturerName", VStr "Sample Manufacturer");
          ("modelName", VStr "Smart Switch");
          ("version", VStr "1");
          ("friendlyName", VStr "Switch");
          ("friendlyDescription", VStr "A switch");
          ("isReachable", VBool true);
          ("actions", VList [VStr "turnOn"; VStr "turnOff"]);
          ("additionalApplianceDetails", VDict []) ].

(** A property of every call a program can make, whatever the replies. *)
Fixpoint calls_only (P : call -> Prop) {A} (p : prog A) : Prop :=
  match p with
  | Call c k => P c /\ forall r, calls_only P (k r)
  | _ => True
  end.

Definition reads_only (c : call) : Prop := is_mutator c = false.

Definition not_logger_info (c : call) : Prop := forall m, c <> LoggerInfo m.

(** The log line that opens each branch of [lambda_handler]. *)
Definition v3_mark : call := LoggerInfo (LogStr "Received v3 directive!").
Definition v2_mark : call := LoggerInfo (LogStr "Received v2 directive!").

Definition routes_to {W} (mark : call) (h : call -> W -> res value * W)
           (request : value) (w : W) : Prop :=
  In mark (trace h (lambda_handler request VNone) w).

Definition stray_v3_request : value :=
  v3_request "Alexa" "Foo" [("correlationToken", VStr "tok-1")] (VDict []).

Definition mislabelled_v2_request : value :=
  v2_request "Alexa.ConnectedHome.Control" "TurnOnRequest" "3".

Definition token_field : list (string * value) :=
  [ ("correlationToken", VStr "tok-1") ].

Definition turn_on_request : value :=
  v3_request "Alexa.PowerController" "TurnOn" token_field (VDict []).

Definition toggle_request : value :=
  v3_request "Alexa.PowerController" "Toggle" token_field (VDict []).

Definition set_temperature_request : value :=
  v3_request "Alexa.ThermostatController" "SetTargetTemperature" token_field
    (VDict [ ("targetSetpoint", celsius_value (VFloat 22.5)) ]).

Definition adjust_temperature_request : value :=
  v3_request "Alexa.ThermostatController" "AdjustTargetTemperature" token_field
    (VDict [ ("targetSetpointDelta", celsius_value (VInt (-2))) ]).

Definition set_mode_request (m : string) : value :=
  v3_request "Alexa.ThermostatController" "SetThermostatMode" token_field
    (VDict [ ("thermostatMode", VDict [ ("value", VStr m) ]) ]).

Definition report_state_request : value :=
  v3_request "Alexa" "ReportState" token_field (VDict []).

(** ** The catalog lookups and what a run was told *)

(** [if v:] *)
Definition truthy (v : value) : bool :=
  match v with
  | VNone => false
  | VBool b => b
  | VInt z => negb (Z.eqb z 0)
  | VFloat f => negb (PrimFloat.eqb f 0)
  | VStr s => negb (String.eqb s "")
  | VList l => match l with [] => false | _ => true end
  | VDict d => match d with [] => false | _ => true end
  end.

(** The loop of [get_appliance_by_appliance_id] over a catalog; identifiers
    are strings. *)
Fixpoint get_appliance_by_appliance_id_in (appliances : list value)
         (appliance_id : string) : prog value :=
  match appliances with
  | [] => Ret VNone
  | appliance :: rest =>
      v <- getitem appliance "applianceId" ;;
      if eq_str v appliance_id then Ret appliance
      else get_appliance_by_appliance_id_in rest appliance_id
  end.

Definition get_appliance_by_appliance_id (appliance_id : string) : prog value :=
  get_appliance_by_appliance_id_in SAMPLE_APPLIANCES appliance_id.

Definition get_endpoint_by_endpoint_id_in (appliances : list value)
           (endpoint_id : string) : prog value :=
  appliance <- get_appliance_by_appliance_id_in appliances endpoint_id ;;
  if truthy appliance then get_endpoint_from_v2_appliance appliance
  else Ret VNone.

Definition get_endpoint_by_endpoint_id (endpoint_id : string) : prog value :=
  get_endpoint_by_endpoint_id_in SAMPLE_APPLIANCES endpoint_id.

(** The first of the keys that a dict lacks. *)
Definition first_missing (ks : list string) (v : value) : option string :=
  find (fun k => match lookup k v with Some _ => false | None => true end) ks.

(** An appliance that carries an identifier other than [appliance_id]. *)
Definition other_id (appliance_id : string) (appliance : value) : Prop :=
  exists v, lookup "applianceId" appliance = Some v /\
            eq_str v appliance_id = false.

(** The calls that reach the device or the sensor. *)
Definition is_device_call (c : call) : bool :=
  match c with
  | AcSetPowerOn | AcSetPowerOff | AcSetTemperature _
  | AcSetModeHeat | AcSetModeCool
  | AcGetPower | AcGetTemperature | AcGetMode | EnvGetTemperature => true
  | _ => false
  end.

Definition no_device_call (c : call) : Prop := is_device_call c = false.

(** The calls a run makes together with the replies it gets. *)
Fixpoint replies {W A} (h : call -> W -> res value * W) (p : prog A) (w : W)
  : list (call * res value) :=
  match p with
  | Call c k => let '(r, w') := h c w in (c, r) :: replies h (k r) w'
  | _ => []
  end.

Definition answered (cr : call * res value) : Prop :=
  is_error (snd cr) = false.

(** A program that returns only if every call it made was answered. *)
Definition careful {A} (p : prog A) : Prop :=
  forall W (h : call -> W -> res value * W) w a w',
    run h p w = (Ok a, w') -> Forall answered (replies h p w).

Definition accept_grant_request (code : value) : value :=
  v3_request "Alexa.Authorization" "AcceptGrant" []
    (VDict [ ("grant", VDict [ ("type", VStr "OAuth2.AuthorizationCode");
                               ("code", code) ]) ]).

Definition bare_turn_on_request : value :=
  v3_request "Alexa.PowerController" "TurnOn" [] (VDict []).

(** The logger takes error lines without failing. *)
Definition error_log_answers {W} (h : call -> W -> res value * W) : Prop :=
  forall m w, is_error (fst (h (LoggerError m) w)) = false.

(** The test double with a remote that refuses to switch on. *)
Definition stuck_handler (c : call) (w : world) : res value * world :=
  match c with
  | AcSetPowerOn => (Err (ValueError "remote not responding"), w)
  | _ => model_handler c w
  end.

(** What a control or report response repeats from its directive. *)
Definition echoes (token endpointId : value) (response : value) : Prop :=
  path ["event"; "header"; "correlationToken"] response = Some token /\
  path ["event"; "endpoint"; "endpointId"] response = Some endpointId /\
  path ["event"; "header"; "namespace"] response = Some (VStr "Alexa") /\
  path ["event"; "header"; "payloadVersion"] response = Some (VStr "3") /\
  path ["event"; "payload"] response = Some (VDict []).

(** The payload field each ThermostatController directive reads. *)
Definition payload_field (name : value) : option string :=
  if eq_str name "SetTargetTemperature" then Some "targetSetpoint"
  else if eq_str name "AdjustTargetTemperature" then Some "targetSetpointDelta"
  else if eq_str name "SetThermostatMode" then Some "thermostatMode"
  else None.

Definition only_setter (c : call) (c' : call) : Prop :=
  is_mutator c' = true -> c' = c.

(** The logger takes every line, information or error. *)
Definition logging_answers {W} (h : call -> W -> res value * W) : Prop :=
  forall m w,
    is_error (fst (h (LoggerInfo m) w)) = false /\
    is_error (fst (h (LoggerError m) w)) = false.

Definition is_log_call (c : call) : bool :=
  match c with LoggerInfo _ | LoggerError _ => true | _ => false end.

(** The entry point hands the request over to the program [p]: after the
    two opening log lines and the line [mark] of the branch, the calls made
    are those of [p], followed by log lines only, and the outcome, response
    or exception, is that of [p]. *)
Definition hands_over {W} (h : call -> W -> res value * W) (request : value)
           (w : W) (mark : call) (p : prog value) : Prop :=
  exists w1 tail,
    trace h (lambda_handler request VNone) w =
      ([ LoggerInfo (LogStr "Directive:"); LoggerInfo (LogJson request); mark ]
       ++ trace h p w1 ++ tail)%list /\
    forallb is_log_call tail = true /\
    fst (run h (lambda_handler request VNone) w) = fst (run h p w1).

Definition discover_power_request : value :=
  v3_request "Alexa.PowerController" "Discover" token_field (VDict []).

Definition world_on : world :=
  World (Device (VStr "ON") (VFloat 25) (VStr "COOL")) (VFloat 27)
        "2026-01-01T00:00:00.00Z" 0.

(** ** Properties, as predicates *)

(** Version detection with a given sentinel: the field under [directive]
    wins, the top-level one comes second, the sentinel last. *)
Definition version_rule (sentinel : string) (request : value) : Prop :=
  get_directive_version request =
  Ret (match path ["directive"; "header"; "payloadVersion"] request with
       | Some v => v
       | None =>
           match path ["header"; "payloadVersion"] request with
           | Some v => v
           | None => VStr sentinel
           end
       end).

Definition has_keys (ks : list string) (v : value) : bool :=
  forallb (fun k => match lookup k v with Some _ => true | None => false end) ks.

Definition appliance_keys : list string :=
  [ "applianceId"; "manufacturerName"; "friendlyName"; "friendlyDescription";
    "additionalApplianceDetails"; "modelName" ].

(** What the projection promises about an endpoint: [n] capabilities, the
    model-specific ones first, the two fixed ones last, and one display
    category. *)
Definition endpoint_shape (n : nat) (specific : list value) (category : string)
           (endpoint : value) : Prop :=
  exists capabilities,
    lookup "capabilities" endpoint = Some (VList capabilities) /\
    length capabilities = n /\
    capabilities =
      (specific ++ [endpoint_health_capability; alexa_interface_capability])%list /\
    lookup "displayCategories" endpoint = Some (VList [VStr category]).

(** The handler answers with an error and no response. *)
Definition unsupported_reported {W} (h : call -> W -> res value * W)
           (request : value) (w : W) : Prop :=
  is_error (fst (run h (lambda_handler request VNone) w)) = true.

(** The pairs the v3 handler has no branch for. *)
Definition unmatched_v3 (namespace name : value) : bool :=
  negb (eq_str namespace "Alexa.PowerController") &&
  negb (eq_str namespace "Alexa.ThermostatController") &&
  negb (eq_str namespace "Alexa" && eq_str name "ReportState") &&
  negb (eq_str namespace "Alexa.Authorization" && eq_str name "AcceptGrant").

(** The shape of a request: which of the two places holds the version. *)
Definition v3_shaped (request v : value) : Prop :=
  path ["directive"; "header"; "payloadVersion"] request = Some v /\
  path ["header"; "payloadVersion"] request = None.

Definition v2_shaped (request v : value) : Prop :=
  path ["directive"; "header"; "payloadVersion"] request = None /\
  path ["header"; "payloadVersion"] request = Some v.

Definition no_misrouting {W} (h : call -> W -> res value * W)
           (request : value) (w : W) : Prop :=
  (forall v, v3_shaped request v -> ~ routes_to v2_mark h request w) /\
  (forall v, v2_shaped request v -> ~ routes_to v3_mark h request w).

(** An entry of [context.properties] for the given interface, property name
    and value. *)
Definition is_property (namespace name : string) (v : value) (p : value)
  : Prop :=
  lookup "namespace" p = Some (VStr namespace) /\
  lookup "name" p = Some (VStr name) /\
  lookup "value" p = Some v /\
  lookup "uncertaintyInMilliseconds" p = Some (VInt 0).

Definition thermostat_directive (name : value) : Prop :=
  name = VStr "SetTargetTemperature" \/
  name = VStr "AdjustTargetTemperature" \/
  name = VStr "SetThermostatMode".

(** The three properties a ThermostatController response reports, holding
    the given mode, setpoint and room temperature. *)
Definition thermostat_snapshot (m t r : value) (response : value) : Prop :=
  exists p1 p2 p3,
    path ["context"; "properties"] response = Some (VList [p1; p2; p3]) /\
    is_property "Alexa.ThermostatController" "thermostatMode" m p1 /\
    is_property "Alexa.ThermostatController" "targetSetpoint" (celsius_value t) p2 /\
    is_property "Alexa.TemperatureSensor" "temperature" (celsius_value r) p3.

(** The five properties of a state report. *)
Definition state_snapshot (m t pw r : value) (response : value) : Prop :=
  exists p1 p2 p3 p4 p5,
    path ["context"; "properties"] response
      = Some (VList [p1; p2; p3; p4; p5]) /\
    is_property "Alexa.ThermostatController" "thermostatMode" m p1 /\
    is_property "Alexa.ThermostatController" "targetSetpoint" (celsius_value t) p2 /\
    is_property "Alexa.PowerController" "powerState" pw p3 /\
    is_property "Alexa.TemperatureSensor" "temperature" (celsius_value r) p4 /\
    is_property "Alexa.EndpointHealth" "connectivity"
      (VDict [ ("value", VStr "OK") ]) p5.

(** The single property of a PowerController response, and the token. *)
Definition power_response (token : value) (v : string) (response : value)
  : Prop :=
  path ["event"; "header"; "correlationToken"] response = Some token /\
  exists p,
    path ["context"; "properties"] response = Some (VList [p]) /\
    is_property "Alexa.PowerController" "powerState" (VStr v) p.

(** A predicate that lets through the clock, the identifiers and the getters. *)
Definition allows_reads (P : call -> Prop) : Prop :=
  P Uuid4Str /\ (forall s, P (TimeGmtime s)) /\ (forall f t, P (TimeStrftime f t)) /\
  P AcGetMode /\ P AcGetTemperature /\ P AcGetPower /\ P EnvGetTemperature.

(** Programs that look into the request only either return or raise. *)
Definition pure {A} (p : prog A) : Prop :=
  (exists a, p = Ret a) \/ (exists e, p = Raise e).

(** The device is switched off and the response says so. *)
Definition switches_off {W} (h : call -> W -> res value * W)
           (request : value) (w : W) : Prop :=
  In AcSetPowerOff (trace h (lambda_handler request VNone) w) /\
  exists response w' p,
    run h (lambda_handler request VNone) w = (Ok response, w') /\
    path ["context"; "properties"] response = Some (VList [p]) /\
    is_property "Alexa.PowerController" "powerState" (VStr "OFF") p.

(** * Proofs *)

Lemma getitem_spec (v : value) (k : string) :
  getitem v k =
  match lookup k v with
  | Some x => Ret x
  | None => Raise (match v with VDict _ => KeyError k | _ => TypeError end)
  end.
Proof.
  destruct v; reflexivity.
Qed.

Lemma getitem_some (v x : value) (k : string) :
  lookup k v = Some x -> getitem v k = Ret x.
Proof. intros H. rewrite getitem_spec, H. reflexivity. Qed.

Lemma eq_str_true (v : value) (s : string) :
  eq_str v s = true <-> v = VStr s.
Proof.
  destruct v; simpl; try (split; [discriminate | intros H; discriminate H]).
  rewrite String.eqb_eq. split; [intros -> | intros [= ->]]; reflexivity.
Qed.

Lemma eq_str_false (v : value) (s : string) :
  eq_str v s = false <-> v <> VStr s.
Proof.
  rewrite <- eq_str_true. destruct (eq_str v s); split; congruence.
Qed.

Lemma path_cons (k : string) (ks : list string) (v : value) :
  path (k :: ks) v =
  match lookup k v with Some v' => path ks v' | None => None end.
Proof. reflexivity. Qed.

(** ** Version detection *)

Lemma get_directive_version_spec :
  forall request, version_rule "-1" request.
Proof.
  intros request. unfold version_rule, get_directive_version.
  rewrite !path_cons.
  rewrite (getitem_spec request "directive").
  destruct (lookup "directive" request) as [d|]; simpl.
  - rewrite (getitem_spec d "header").
    destruct (lookup "header" d) as [hd|]; simpl.
    + rewrite (getitem_spec hd "payloadVersion").
      destruct (lookup "payloadVersion" hd) as [v|]; simpl; [reflexivity|].
      rewrite (getitem_spec request "header").
      destruct (lookup "header" request) as [hd'|]; simpl; [|reflexivity].
      rewrite (getitem_spec hd' "payloadVersion").
      destruct (lookup "payloadVersion" hd'); reflexivity.
    + rewrite (getitem_spec request "header").
      destruct (lookup "header" request) as [hd'|]; simpl; [|reflexivity].
      rewrite (getitem_spec hd' "payloadVersion").
      destruct (lookup "payloadVersion" hd'); reflexivity.
  - rewrite (getitem_spec request "header").
    destruct (lookup "header" request) as [hd'|]; simpl; [|reflexivity].
    rewrite (getitem_spec hd' "payloadVersion").
    destruct (lookup "payloadVersion" hd'); reflexivity.
Qed.

(** C2, amended: the value under [directive.header.payloadVersion] if that
    path exists, else the value under [header.payloadVersion], else the
    sentinel ["-1"]; the function returns for every request, without raising
    and without calling anything. *)
Theorem get_directive_version_rule :
  forall request, version_rule "-1" request.
Proof. exact get_directive_version_spec. Qed.

(** C2 as stated fails: on a request with neither field the sentinel
    ["unknown"] is not what comes back. *)
Lemma version_rule_unknown_fails : ~ version_rule "unknown" (VDict []).
Proof. unfold version_rule. simpl. intros H. discriminate H. Qed.

Corollary get_directive_version_total :
  forall request, exists v, get_directive_version request = Ret v.
Proof. intros request. eexists. apply get_directive_version_spec. Qed.

(** ** The projection of an appliance *)

Lemma has_keys_lookup (ks : list string) (v : value) (k : string) :
  has_keys ks v = true -> In k ks -> exists x, lookup k v = Some x.
Proof.
  unfold has_keys. rewrite forallb_forall. intros H Hin.
  specialize (H k Hin). destruct (lookup k v) as [x|]; [eauto | discriminate].
Qed.

Lemma get_endpoint_from_v2_appliance_shape (appliance model_name : value) :
  has_keys appliance_keys appliance = true ->
  lookup "modelName" appliance = Some model_name ->
  exists endpoint,
    get_endpoint_from_v2_appliance appliance = Ret endpoint /\
    lookup "capabilities" endpoint =
      Some (VList ((if eq_str model_name "Smart Thermostat"
                    then [ thermostat_controller_capability;
                           power_controller_capability;
                           temperature_sensor_capability ]
                    else [ power_controller_capability ])
                   ++ [endpoint_health_capability; alexa_interface_capability])%list) /\
    lookup "displayCategories" endpoint =
      Some (VList [VStr (if eq_str model_name "Smart Thermostat"
                         then "THERMOSTAT" else "OTHER")]).
Proof.
  intros Hk Hm.
  destruct (has_keys_lookup _ _ "applianceId" Hk) as [a Ha]; [simpl; tauto|].
  destruct (has_keys_lookup _ _ "manufacturerName" Hk) as [b Hb]; [simpl; tauto|].
  destruct (has_keys_lookup _ _ "friendlyName" Hk) as [c Hc]; [simpl; tauto|].
  destruct (has_keys_lookup _ _ "friendlyDescription" Hk) as [d Hd]; [simpl; tauto|].
  destruct (has_keys_lookup _ _ "additionalApplianceDetails" Hk) as [e He];
    [simpl; tauto|].
  unfold get_endpoint_from_v2_appliance,
    get_display_categories_from_v2_appliance,
    get_capabilities_from_v2_appliance.
  rewrite (getitem_some _ _ _ Ha), (getitem_some _ _ _ Hb),
    (getitem_some _ _ _ Hc), (getitem_some _ _ _ Hd),
    (getitem_some _ _ _ He), (getitem_some _ _ _ Hm).
  simpl. eexists. split; [reflexivity|].
  destruct (eq_str model_name "Smart Thermostat"); simpl; split; reflexivity.
Qed.

(** C4: an appliance whose model name is "Smart Thermostat" projects to an
    endpoint with exactly 5 capabilities, the last two being EndpointHealth
    and then the base "Alexa" descriptor, and with display categories
    ["THERMOSTAT"]; the two helper functions give these lists for every
    appliance with that model name. *)
Theorem smart_thermostat_endpoint (appliance : value) :
  lookup "modelName" appliance = Some (VStr "Smart Thermostat") ->
  get_capabilities_from_v2_appliance appliance =
    Ret (VList [ thermostat_controller_capability;
                 power_controller_capability;
                 temperature_sensor_capability;
                 endpoint_health_capability;
                 alexa_interface_capability ]) /\
  get_display_categories_from_v2_appliance appliance =
    Ret (VList [VStr "THERMOSTAT"]) /\
  (has_keys appliance_keys appliance = true ->
   exists endpoint,
     get_endpoint_from_v2_appliance appliance = Ret endpoint /\
     endpoint_shape 5 [ thermostat_controller_capability;
                        power_controller_capability;
                        temperature_sensor_capability ] "THERMOSTAT" endpoint).
Proof.
  intros Hm. split; [|split].
  - unfold get_capabilities_from_v2_appliance.
    rewrite (getitem_some _ _ _ Hm). reflexivity.
  - unfold get_display_categories_from_v2_appliance.
    rewrite (getitem_some _ _ _ Hm). reflexivity.
  - intros Hk.
    destruct (get_endpoint_from_v2_appliance_shape _ _ Hk Hm)
      as (endpoint & Hrun & Hcaps & Hcat).
    simpl in Hcaps, Hcat.
    exists endpoint. split; [exact Hrun|].
    eexists. split; [exact Hcaps|].
    split; [reflexivity|]. split; [reflexivity | exact Hcat].
Qed.

Lemma smart_thermostat_endpoint_witness :
  lookup "modelName" (hd VNone SAMPLE_APPLIANCES) = Some (VStr "Smart Thermostat") /\
  exists endpoint,
    get_endpoint_from_v2_appliance (hd VNone SAMPLE_APPLIANCES) = Ret endpoint /\
    endpoint_shape 5 [ thermostat_controller_capability;
                       power_controller_capability;
                       temperature_sensor_capability ] "THERMOSTAT" endpoint.
Proof.
  split; [reflexivity|].
  apply (smart_thermostat_endpoint (hd VNone SAMPLE_APPLIANCES));
    reflexivity.
Defined.

(** C5: an appliance whose model name is anything but "Smart Thermostat"
    projects to an endpoint with exactly 3 capabilities, PowerController,
    EndpointHealth and the base "Alexa" descriptor in that order, and with
    display categories ["OTHER"]. *)
Theorem other_model_endpoint (appliance model_name : value) :
  lookup "modelName" appliance = Some model_name ->
  model_name <> VStr "Smart Thermostat" ->
  get_capabilities_from_v2_appliance appliance =
    Ret (VList [ power_controller_capability;
                 endpoint_health_capability;
                 alexa_interface_capability ]) /\
  get_display_categories_from_v2_appliance appliance =
    Ret (VList [VStr "OTHER"]) /\
  (has_keys appliance_keys appliance = true ->
   exists endpoint,
     get_endpoint_from_v2_appliance appliance = Ret endpoint /\
     endpoint_shape 3 [ power_controller_capability ] "OTHER" endpoint).
Proof.
  intros Hm Hne. apply eq_str_false in Hne. split; [|split].
  - unfold get_capabilities_from_v2_appliance.
    rewrite (getitem_some _ _ _ Hm). simpl. rewrite Hne. reflexivity.
  - unfold get_display_categories_from_v2_appliance.
    rewrite (getitem_some _ _ _ Hm). simpl. rewrite Hne. reflexivity.
  - intros Hk.
    destruct (get_endpoint_from_v2_appliance_shape _ _ Hk Hm)
      as (endpoint & Hrun & Hcaps & Hcat).
    rewrite Hne in Hcaps, Hcat.
    simpl in Hcaps, Hcat.
    exists endpoint. split; [exact Hrun|].
    eexists. split; [exact Hcaps|].
    split; [reflexivity|]. split; [reflexivity | exact Hcat].
Qed.

Lemma other_model_endpoint_witness :
  exists endpoint,
    get_endpoint_from_v2_appliance sample_switch = Ret endpoint /\
    endpoint_shape 3 [ power_controller_capability ] "OTHER" endpoint.
Proof.
  apply (other_model_endpoint sample_switch (VStr "Smart Switch"));
    [reflexivity | discriminate | reflexivity].
Defined.

(** ** Running programs *)

Section RunFacts.
Context {W : Type}.
Variable h : call -> W -> res value * W.

Lemma run_bind {A B} (m : prog A) (f : A -> prog B) (w : W) :
  run h (bind m f) w =
  match run h m w with
  | (Ok a, w') => run h (f a) w'
  | (Err e, w') => (Err e, w')
  end.
Proof.
  revert w. induction m as [a|e|c k IH]; intros w; simpl; try reflexivity.
  destruct (h c w) as [r w']. apply IH.
Qed.

Lemma trace_bind {A B} (m : prog A) (f : A -> prog B) (w : W) :
  trace h (bind m f) w =
  (trace h m w ++
   match run h m w with
   | (Ok a, w') => trace h (f a) w'
   | (Err _, _) => []
   end)%list.
Proof.
  revert w. induction m as [a|e|c k IH]; intros w; simpl; try reflexivity.
  destruct (h c w) as [r w']. rewrite IH. reflexivity.
Qed.

Lemma run_bind_ok {A B} (m : prog A) (f : A -> prog B) (w w' : W) (b : B) :
  run h (bind m f) w = (Ok b, w') ->
  exists a w1, run h m w = (Ok a, w1) /\ run h (f a) w1 = (Ok b, w').
Proof.
  rewrite run_bind. destruct (run h m w) as [[a|e] w1]; [eauto | discriminate].
Qed.

Lemma run_ret_ok {A} (a b : A) (w w' : W) :
  run h (Ret a) w = (Ok b, w') -> a = b /\ w = w'.
Proof. simpl. intros [= -> ->]. split; reflexivity. Qed.

Lemma run_ext_reliable (c : call) (w : W) :
  reliable h -> exists v w', run h (ext c) w = (Ok v, w').
Proof.
  intros Hr. specialize (Hr c w). simpl.
  destruct (h c w) as [[v|e] w']; simpl in *; [eauto | discriminate].
Qed.

Lemma run_bind_returns {A B} (m : prog A) (f : A -> prog B) (w : W) :
  (exists a w1, run h m w = (Ok a, w1) /\
                exists b w', run h (f a) w1 = (Ok b, w')) ->
  exists b w', run h (bind m f) w = (Ok b, w').
Proof.
  intros (a & w1 & Hm & b & w' & Hf). rewrite run_bind, Hm. eauto.
Qed.

Lemma calls_only_trace (P : call -> Prop) {A} (p : prog A) (w : W) :
  calls_only P p -> Forall P (trace h p w).
Proof.
  revert w. induction p as [a|e|c k IH]; intros w Hp; simpl; try constructor.
  destruct Hp as [Hc Hk]. destruct (h c w) as [r w'].
  constructor; [exact Hc | apply IH, Hk].
Qed.
End RunFacts.

Lemma calls_only_bind (P : call -> Prop) {A B} (m : prog A) (f : A -> prog B) :
  calls_only P m -> (forall a, calls_only P (f a)) -> calls_only P (bind m f).
Proof.
  intros Hm Hf. induction m as [a|e|c k IH]; simpl; auto.
  destruct Hm as [Hc Hk]. split; [exact Hc | intros r; apply IH, Hk].
Qed.

Lemma calls_only_try (P : call -> Prop) {A} (m : prog A) (catches : exn -> bool)
      (hd : exn -> prog A) :
  calls_only P m -> (forall e, calls_only P (hd e)) ->
  calls_only P (try_except m catches hd).
Proof.
  intros Hm Hh. induction m as [a|e|c k IH]; simpl; auto.
  - destruct (catches e); [apply Hh | exact I].
  - destruct Hm as [Hc Hk]. split; [exact Hc | intros r; apply IH, Hk].
Qed.

Lemma calls_only_weaken (P Q : call -> Prop) {A} (p : prog A) :
  (forall c, P c -> Q c) -> calls_only P p -> calls_only Q p.
Proof.
  intros HPQ. induction p as [a|e|c k IH]; simpl; auto.
  intros [Hc Hk]. split; [apply HPQ, Hc | intros r; apply IH, Hk].
Qed.

Lemma calls_only_ext (P : call -> Prop) (c : call) :
  P c -> calls_only P (ext c).
Proof. intros Hc. simpl. split; [exact Hc | intros [v|e]; exact I]. Qed.

Lemma calls_only_getitem (P : call -> Prop) (v : value) (k : string) :
  calls_only P (getitem v k).
Proof. rewrite getitem_spec. destruct (lookup k v); exact I. Qed.

Lemma calls_only_float_of_int (P : call -> Prop) (z : Z) :
  calls_only P (float_of_int z).
Proof.
  unfold float_of_int.
  destruct (SpecFloat.binary_normalize FloatOps.prec FloatOps.emax z 0 false);
    exact I.
Qed.

Lemma calls_only_py_add (P : call -> Prop) (a b : value) :
  calls_only P (py_add a b).
Proof.
  unfold py_add.
  destruct a, b; cbn [int_of]; try exact I;
    repeat match goal with |- context [if ?x then _ else _] => destruct x end;
    try exact I;
    (apply calls_only_bind; [apply calls_only_float_of_int | intros ?; exact I]).
Qed.

(** Breaks a goal [calls_only P p] down along the structure of [p]; what is
    left are the obligations [P c] of the calls themselves. *)
Ltac calls_only_step :=
  match goal with
  | |- calls_only _ (bind _ _) => apply calls_only_bind; [|intros ?]
  | |- calls_only _ (try_except _ _ _) => apply calls_only_try; [|intros ?]
  | |- calls_only _ (getitem _ _) => apply calls_only_getitem
  | |- calls_only _ (py_add _ _) => apply calls_only_py_add
  | |- calls_only _ (ext _) => apply calls_only_ext
  | |- calls_only _ (Ret _) => exact I
  | |- calls_only _ (Raise _) => exact I
  | |- calls_only _ (if ?b then _ else _) => destruct b
  | |- calls_only _ (match ?x with Some _ => _ | None => _ end) => destruct x
  end.

Ltac calls_only_tac := repeat calls_only_step.

Lemma calls_only_directive_header (P : call -> Prop) (request : value)
      (k : string) :
  calls_only P (directive_header request k).
Proof. unfold directive_header. calls_only_tac. Qed.

Lemma calls_only_directive_endpoint_id (P : call -> Prop) (request : value) :
  calls_only P (directive_endpoint_id request).
Proof. unfold directive_endpoint_id. calls_only_tac. Qed.

Lemma calls_only_directive_payload (P : call -> Prop) (request : value)
      (k1 k2 : string) :
  calls_only P (directive_payload request k1 k2).
Proof. unfold directive_payload. calls_only_tac. Qed.

Lemma directive_header_some (request x : value) (k : string) :
  path ["directive"; "header"; k] request = Some x ->
  directive_header request k = Ret x.
Proof.
  unfold directive_header. rewrite !path_cons.
  rewrite (getitem_spec request "directive").
  destruct (lookup "directive" request) as [d|]; [simpl|discriminate].
  rewrite (getitem_spec d "header").
  destruct (lookup "header" d) as [hd|]; [simpl|discriminate].
  intros H. apply getitem_some. destruct (lookup k hd); [|discriminate].
  simpl in H. exact H.
Qed.

Lemma directive_endpoint_id_some (request x : value) :
  path ["directive"; "endpoint"; "endpointId"] request = Some x ->
  directive_endpoint_id request = Ret x.
Proof.
  unfold directive_endpoint_id. rewrite !path_cons.
  rewrite (getitem_spec request "directive").
  destruct (lookup "directive" request) as [d|]; [simpl|discriminate].
  rewrite (getitem_spec d "endpoint").
  destruct (lookup "endpoint" d) as [e|]; [simpl|discriminate].
  intros H. apply getitem_some. destruct (lookup "endpointId" e); [|discriminate].
  simpl in H. exact H.
Qed.

Lemma directive_payload_some (request x : value) (k1 k2 : string) :
  path ["directive"; "payload"; k1; k2] request = Some x ->
  directive_payload request k1 k2 = Ret x.
Proof.
  unfold directive_payload. rewrite !path_cons.
  rewrite (getitem_spec request "directive").
  destruct (lookup "directive" request) as [d|]; [simpl|discriminate].
  rewrite (getitem_spec d "payload").
  destruct (lookup "payload" d) as [p|]; [simpl|discriminate].
  rewrite (getitem_spec p k1).
  destruct (lookup k1 p) as [y|]; [simpl|discriminate].
  intros H. apply getitem_some. destruct (lookup k2 y); [|discriminate].
  simpl in H. exact H.
Qed.

(** ** What the handlers call *)

Ltac not_logger := unfold not_logger_info; intros; discriminate.

Lemma calls_only_property_state (P : call -> Prop) (namespace name : string)
      (sample : prog value) :
  (forall s, P (TimeGmtime s)) -> (forall f t, P (TimeStrftime f t)) ->
  calls_only P sample ->
  calls_only P (property_state namespace name sample).
Proof.
  intros Hg Hs Hp. unfold property_state, get_utc_timestamp.
  calls_only_tac; auto.
Qed.

Lemma calls_only_celsius (P : call -> Prop) (sample : prog value) :
  calls_only P sample -> calls_only P (celsius sample).
Proof. intros Hp. unfold celsius. calls_only_tac; auto. Qed.

Lemma calls_only_event_block (P : call -> Prop) (request : value)
      (name : string) :
  P Uuid4Str -> calls_only P (event_block request name).
Proof.
  intros Hu. unfold event_block, get_uuid.
  calls_only_tac; auto using calls_only_directive_header,
    calls_only_directive_endpoint_id.
Qed.

Lemma calls_only_thermostat_controller_response (P : call -> Prop)
      (request : value) :
  allows_reads P -> calls_only P (thermostat_controller_response request).
Proof.
  intros (Hu & Hg & Hs & Hm & Ht & Hp & He).
  unfold thermostat_controller_response.
  calls_only_tac;
    auto using calls_only_event_block, calls_only_property_state,
      calls_only_celsius, calls_only_ext.
Qed.

Lemma calls_only_state_report (P : call -> Prop) (request : value) :
  allows_reads P -> calls_only P (state_report request).
Proof.
  intros (Hu & Hg & Hs & Hm & Ht & Hp & He).
  unfold state_report.
  calls_only_tac;
    auto using calls_only_event_block, calls_only_property_state,
      calls_only_celsius, calls_only_ext.
  apply calls_only_property_state; auto. exact I.
Qed.

Lemma calls_only_power_controller_response (P : call -> Prop)
      (request : value) (v : string) :
  allows_reads P -> calls_only P (power_controller_response request v).
Proof.
  intros (Hu & Hg & Hs & Hm & Ht & Hp & He).
  unfold power_controller_response, get_uuid.
  calls_only_tac;
    auto using calls_only_directive_header, calls_only_directive_endpoint_id.
  apply calls_only_property_state; auto. exact I.
Qed.

Lemma allows_reads_not_logger_info : allows_reads not_logger_info.
Proof.
  unfold allows_reads, not_logger_info.
  repeat match goal with |- _ /\ _ => split end; intros; discriminate.
Qed.

Lemma allows_reads_reads_only : allows_reads reads_only.
Proof.
  unfold allows_reads, reads_only.
  repeat match goal with |- _ /\ _ => split end; intros; reflexivity.
Qed.

Lemma calls_only_thermostat_controller_action (P : call -> Prop)
      (request name : value) :
  P AcGetTemperature -> (forall t, P (AcSetTemperature t)) ->
  P AcSetModeHeat -> P AcSetModeCool ->
  calls_only P (thermostat_controller_action request name).
Proof.
  intros Hg Hs Hh Hc. unfold thermostat_controller_action.
  calls_only_tac; auto using calls_only_directive_payload.
Qed.

Lemma handle_non_discovery_v3_never_logs (request : value) :
  calls_only not_logger_info (handle_non_discovery_v3 request).
Proof.
  pose proof allows_reads_not_logger_info as Hr.
  unfold handle_non_discovery_v3, accept_grant_response, get_uuid.
  calls_only_tac;
    auto using calls_only_directive_header, calls_only_directive_payload,
      calls_only_power_controller_response,
      calls_only_thermostat_controller_response, calls_only_state_report;
    try not_logger.
  apply calls_only_thermostat_controller_action; try intros ?; not_logger.
Qed.

Lemma handle_discovery_v3_never_logs (request : value) :
  calls_only not_logger_info (handle_discovery_v3 request).
Proof.
  unfold handle_discovery_v3. simpl.
  split; [not_logger | intros [v|e]; exact I].
Qed.

Lemma handle_discovery_never_logs :
  calls_only not_logger_info handle_discovery.
Proof.
  unfold handle_discovery. simpl.
  split; [not_logger | intros [v|e]; exact I].
Qed.

Lemma handle_non_discovery_never_logs (request : value) :
  calls_only not_logger_info (handle_non_discovery request).
Proof.
  unfold handle_non_discovery, confirmation_header, get_uuid.
  calls_only_tac; not_logger.
Qed.

(** ** The entry point *)

Section Entry.
Context {W : Type}.
Variable h : call -> W -> res value * W.

Lemma run_try_ok {A} (m : prog A) (catches : exn -> bool)
      (hd : exn -> prog A) (w w' : W) (a : A) :
  run h m w = (Ok a, w') -> run h (try_except m catches hd) w = (Ok a, w').
Proof.
  revert w. induction m as [x|e|c k IH]; intros w; simpl.
  - trivial.
  - discriminate.
  - destruct (h c w) as [r w1]. apply IH.
Qed.

Lemma trace_try_in {A} (m : prog A) (catches : exn -> bool)
      (hd : exn -> prog A) (w : W) (c : call) :
  In c (trace h m w) -> In c (trace h (try_except m catches hd) w).
Proof.
  revert w. induction m as [x|e|c' k IH]; intros w; simpl; try tauto.
  destruct (h c' w) as [r w1]. simpl. intros [Hc|Hc]; [left|right]; auto.
Qed.

Lemma trace_ext_head (c : call) (w : W) : In c (trace h (ext c) w).
Proof. simpl. destruct (h c w) as [r w']. left. reflexivity. Qed.

Lemma run_try_err {A} (m : prog A) (catches : exn -> bool)
      (hd : exn -> prog A) (w w' : W) (e : exn) :
  run h m w = (Err e, w') ->
  run h (try_except m catches hd) w =
  if catches e then run h (hd e) w' else (Err e, w').
Proof.
  revert w. induction m as [x|e'|c k IH]; intros w; simpl.
  - discriminate.
  - intros [= -> ->]. destruct (catches e); reflexivity.
  - destruct (h c w) as [r w1]. apply IH.
Qed.

Lemma trace_try {A} (m : prog A) (catches : exn -> bool)
      (hd : exn -> prog A) (w : W) :
  trace h (try_except m catches hd) w =
  (trace h m w ++
   match run h m w with
   | (Err e, w') => if catches e then trace h (hd e) w' else []
   | (Ok _, _) => []
   end)%list.
Proof.
  revert w. induction m as [x|e|c k IH]; intros w; simpl.
  - reflexivity.
  - destruct (catches e); reflexivity.
  - destruct (h c w) as [r w1]. rewrite IH. reflexivity.
Qed.

Lemma ext_answered (c : call) (w : W) :
  is_error (fst (h c w)) = false ->
  exists x w', run h (ext c) w = (Ok x, w') /\ trace h (ext c) w = [c].
Proof.
  simpl. destruct (h c w) as [[x|e] w']; simpl; [|discriminate].
  intros _. exists x, w'. split; reflexivity.
Qed.

(** The shape of [lambda_handler] around the branch it selects. *)
Lemma hands_over_branch (request : value) (mark : logmsg) (p : prog value)
      (w : W) :
  logging_answers h ->
  exists w1 tail,
    trace h
      (try_except
         (ext (LoggerInfo (LogStr "Directive:")) ;;;
          ext (LoggerInfo (LogJson request)) ;;;
          response <- (ext (LoggerInfo mark) ;;; p) ;;
          ext (LoggerInfo (LogStr "Response:")) ;;;
          ext (LoggerInfo (LogJson response)) ;;;
          Ret response)
         is_ValueError
         (fun error => ext (LoggerError (LogExn error)) ;;; Raise error)) w =
      ([ LoggerInfo (LogStr "Directive:"); LoggerInfo (LogJson request);
         LoggerInfo mark ] ++ trace h p w1 ++ tail)%list /\
    forallb is_log_call tail = true /\
    fst (run h
           (try_except
              (ext (LoggerInfo (LogStr "Directive:")) ;;;
               ext (LoggerInfo (LogJson request)) ;;;
               response <- (ext (LoggerInfo mark) ;;; p) ;;
               ext (LoggerInfo (LogStr "Response:")) ;;;
               ext (LoggerInfo (LogJson response)) ;;;
               Ret response)
              is_ValueError
              (fun error => ext (LoggerError (LogExn error)) ;;; Raise error))
           w)
    = fst (run h p w1).
Proof.
  intros Hl.
  destruct (ext_answered (LoggerInfo (LogStr "Directive:")) w
              (proj1 (Hl _ _))) as (x1 & w1 & E1 & T1).
  destruct (ext_answered (LoggerInfo (LogJson request)) w1
              (proj1 (Hl _ _))) as (x2 & w2 & E2 & T2).
  destruct (ext_answered (LoggerInfo mark) w2 (proj1 (Hl _ _)))
    as (x3 & w3 & E3 & T3).
  exists w3.
  set (body := ext (LoggerInfo (LogStr "Directive:")) ;;;
               ext (LoggerInfo (LogJson request)) ;;;
               response <- (ext (LoggerInfo mark) ;;; p) ;;
               ext (LoggerInfo (LogStr "Response:")) ;;;
               ext (LoggerInfo (LogJson response)) ;;;
               Ret response).
  destruct (run h p w3) as [[response|e] w4] eqn:Ep.
  - destruct (ext_answered (LoggerInfo (LogStr "Response:")) w4
                (proj1 (Hl _ _))) as (x5 & w5 & E5 & T5).
    destruct (ext_answered (LoggerInfo (LogJson response)) w5
                (proj1 (Hl _ _))) as (x6 & w6 & E6 & T6).
    assert (Hrun : run h body w = (Ok response, w6)).
    { unfold body. rewrite run_bind, E1. rewrite run_bind, E2.
      rewrite run_bind. rewrite (run_bind h (ext (LoggerInfo mark))), E3, Ep.
      rewrite run_bind, E5. rewrite run_bind, E6. reflexivity. }
    exists [ LoggerInfo (LogStr "Response:"); LoggerInfo (LogJson response) ].
    split; [|split; [reflexivity|]].
    + rewrite trace_try, Hrun. rewrite app_nil_r. unfold body.
      rewrite trace_bind, T1, E1. rewrite trace_bind, T2, E2.
      rewrite trace_bind. rewrite (trace_bind h (ext (LoggerInfo mark))), T3, E3.
      rewrite (run_bind h (ext (LoggerInfo mark))), E3, Ep.
      rewrite trace_bind, T5, E5. rewrite trace_bind, T6, E6.
      simpl. reflexivity.
    + rewrite (run_try_ok _ _ _ _ _ _ Hrun). reflexivity.
  - assert (Hrun : run h body w = (Err e, w4)).
    { unfold body. rewrite run_bind, E1. rewrite run_bind, E2.
      rewrite run_bind. rewrite (run_bind h (ext (LoggerInfo mark))), E3, Ep.
      reflexivity. }
    assert (Htr : trace h body w =
                  ([ LoggerInfo (LogStr "Directive:");
                     LoggerInfo (LogJson request); LoggerInfo mark ]
                   ++ trace h p w3)%list).
    { unfold body. rewrite trace_bind, T1, E1. rewrite trace_bind, T2, E2.
      rewrite trace_bind. rewrite (trace_bind h (ext (LoggerInfo mark))), T3, E3.
      rewrite (run_bind h (ext (LoggerInfo mark))), E3, Ep.
      simpl. rewrite app_nil_r. reflexivity. }
    destruct (is_ValueError e) eqn:Ev.
    + destruct (ext_answered (LoggerError (LogExn e)) w4 (proj2 (Hl _ _)))
        as (x5 & w5 & E5 & T5).
      exists [ LoggerError (LogExn e) ].
      split; [|split; [reflexivity|]].
      * rewrite trace_try, Hrun, Ev, Htr. rewrite trace_bind, T5, E5.
        simpl. rewrite <- ?app_assoc. reflexivity.
      * rewrite (run_try_err _ _ _ _ _ _ Hrun), Ev. rewrite run_bind, E5.
        reflexivity.
    + exists []. split; [|split; [reflexivity|]].
      * rewrite trace_try, Hrun, Ev, Htr. rewrite !app_nil_r. reflexivity.
      * rewrite (run_try_err _ _ _ _ _ _ Hrun), Ev. reflexivity.
Qed.

(** With reliable collaborators a v3 request that is not a discovery gets
    the answer of [handle_non_discovery_v3], run after the log lines. *)
Lemma lambda_handler_v3_returns (request context name : value) :
  reliable h ->
  path ["directive"; "header"; "payloadVersion"] request = Some (VStr "3") ->
  path ["directive"; "header"; "name"] request = Some name ->
  name <> VStr "Discover" ->
  forall w, exists w1, forall response w2,
    run h (handle_non_discovery_v3 request) w1 = (Ok response, w2) ->
    exists w3, run h (lambda_handler request context) w = (Ok response, w3).
Proof.
  intros Hr Hv Hn Hd w.
  pose proof (get_directive_version_spec request) as Hg.
  unfold version_rule in Hg. rewrite Hv in Hg.
  apply eq_str_false in Hd.
  destruct (run_ext_reliable h (LoggerInfo (LogStr "Directive:")) w Hr)
    as (x1 & w1 & E1).
  destruct (run_ext_reliable h (LoggerInfo (LogJson request)) w1 Hr)
    as (x2 & w2 & E2).
  destruct (run_ext_reliable h v3_mark w2 Hr) as (x3 & w3 & E3).
  exists w3. intros response w4 Hrun.
  destruct (run_ext_reliable h (LoggerInfo (LogStr "Response:")) w4 Hr)
    as (x5 & w5 & E5).
  destruct (run_ext_reliable h (LoggerInfo (LogJson response)) w5 Hr)
    as (x6 & w6 & E6).
  exists w6. unfold lambda_handler. apply run_try_ok.
  rewrite Hg. rewrite run_bind, E1. rewrite run_bind, E2.
  cbn [bind eq_str String.eqb Ascii.eqb Bool.eqb]. rewrite run_bind.
  unfold v3_branch. rewrite run_bind. fold v3_mark. rewrite E3.
  rewrite (directive_header_some _ _ _ Hn). cbn [bind]. rewrite Hd, Hrun.
  rewrite run_bind, E5. rewrite run_bind, E6. reflexivity.
Qed.
End Entry.

Lemma detected_version (request v : value) :
  v3_shaped request v \/ v2_shaped request v ->
  get_directive_version request = Ret v.
Proof.
  pose proof (get_directive_version_spec request) as Hg.
  unfold version_rule in Hg.
  intros [[H3 H2]|[H3 H2]]; rewrite H3 in Hg; [|rewrite H2 in Hg]; exact Hg.
Qed.

Lemma v3_branch_calls (request : value) :
  calls_only (fun c => c <> v2_mark) (v3_branch request).
Proof.
  unfold v3_branch. calls_only_tac; try discriminate.
  - apply calls_only_directive_header.
  - apply (calls_only_weaken not_logger_info);
      [intros c Hc; apply Hc | apply handle_discovery_v3_never_logs].
  - apply (calls_only_weaken not_logger_info);
      [intros c Hc; apply Hc | apply handle_non_discovery_v3_never_logs].
Qed.

Lemma v2_branch_calls (request : value) :
  calls_only (fun c => c <> v3_mark) (v2_branch request).
Proof.
  unfold v2_branch. calls_only_tac; try discriminate.
  - apply (calls_only_weaken not_logger_info);
      [intros c Hc; apply Hc | apply handle_discovery_never_logs].
  - apply (calls_only_weaken not_logger_info);
      [intros c Hc; apply Hc | apply handle_non_discovery_never_logs].
Qed.

Lemma lambda_handler_calls (P : call -> Prop) (request context v : value) :
  get_directive_version request = Ret v ->
  (forall m, m <> LogStr "Received v3 directive!" ->
             m <> LogStr "Received v2 directive!" -> P (LoggerInfo m)) ->
  (forall m, P (LoggerError m)) ->
  calls_only P (if eq_str v "3" then v3_branch request else v2_branch request) ->
  calls_only P (lambda_handler request context).
Proof.
  intros Hg Hi He Hb. unfold lambda_handler. rewrite Hg.
  apply calls_only_try.
  - apply calls_only_bind; [apply calls_only_ext, Hi; discriminate|intros _].
    apply calls_only_bind; [apply calls_only_ext, Hi; discriminate|intros _].
    cbn [bind].
    apply calls_only_bind; [exact Hb|intros response].
    apply calls_only_bind; [apply calls_only_ext, Hi; discriminate|intros _].
    apply calls_only_bind; [apply calls_only_ext, Hi; discriminate|intros _].
    exact I.
  - intros e. apply calls_only_bind; [apply calls_only_ext, He|intros _].
    exact I.
Qed.

Lemma lambda_handler_hands_over {W} (h : call -> W -> res value * W)
      (request v : value) (w : W) :
  get_directive_version request = Ret v ->
  logging_answers h ->
  hands_over h request w
    (if eq_str v "3" then v3_mark else v2_mark)
    (if eq_str v "3"
     then (name <- directive_header request "name" ;;
           if eq_str name "Discover"
           then handle_discovery_v3 request
           else handle_non_discovery_v3 request)
     else (hd <- getitem request "header" ;;
           namespace <- getitem hd "namespace" ;;
           if eq_str namespace "Alexa.ConnectedHome.Discovery"
           then handle_discovery
           else handle_non_discovery request)).
Proof.
  intros Hg Hl. unfold hands_over, lambda_handler. rewrite Hg. cbn [bind].
  destruct (eq_str v "3").
  - exact (hands_over_branch h request (LogStr "Received v3 directive!") _ w Hl).
  - exact (hands_over_branch h request (LogStr "Received v2 directive!") _ w Hl).
Qed.

Lemma reliable_logging_answers {W} (h : call -> W -> res value * W) :
  reliable h -> logging_answers h.
Proof. intros Hr m w. split; apply Hr. Qed.

(** C3, amended: when exactly one of the two places holds a version [v],
    the request enters the v3 branch only if [v] is "3" and the v2 branch
    only if it is not; and when the logger takes its lines, the request is
    handed over to the v3 handlers ([handle_discovery_v3] for the name
    "Discover", [handle_non_discovery_v3] otherwise) if [v] is "3" and to the
    v2 handlers ([handle_discovery] for the discovery namespace,
    [handle_non_discovery] otherwise) if it is not: every call that is not a
    log line is a call of those handlers, and the response or exception is
    theirs.  So a v3-shaped request whose version is "3" is never handled as
    v2, and a v2-shaped request whose version is not "3" is never handled as
    v3. *)
Theorem dispatch_by_detected_version {W} (h : call -> W -> res value * W)
        (w : W) (request v : value) :
  v3_shaped request v \/ v2_shaped request v ->
  (routes_to v3_mark h request w -> v = VStr "3") /\
  (routes_to v2_mark h request w -> v <> VStr "3") /\
  (logging_answers h ->
   routes_to (if eq_str v "3" then v3_mark else v2_mark) h request w /\
   hands_over h request w
     (if eq_str v "3" then v3_mark else v2_mark)
     (if eq_str v "3"
      then (name <- directive_header request "name" ;;
            if eq_str name "Discover"
            then handle_discovery_v3 request
            else handle_non_discovery_v3 request)
      else (hd <- getitem request "header" ;;
            namespace <- getitem hd "namespace" ;;
            if eq_str namespace "Alexa.ConnectedHome.Discovery"
            then handle_discovery
            else handle_non_discovery request))).
Proof.
  intros Hshape. apply detected_version in Hshape.
  split; [|split].
  - unfold routes_to. intros Hin. apply eq_str_true.
    destruct (eq_str v "3") eqn:E; [reflexivity|exfalso].
    assert (Hc : calls_only (fun c => c <> v3_mark) (lambda_handler request VNone)).
    { apply (lambda_handler_calls _ _ _ v Hshape).
      - intros m H3 _ [= Hm]. contradiction.
      - discriminate.
      - rewrite E. apply v2_branch_calls. }
    apply (calls_only_trace h _ _ w) in Hc.
    rewrite Forall_forall in Hc. exact (Hc _ Hin eq_refl).
  - unfold routes_to. intros Hin. apply eq_str_false.
    destruct (eq_str v "3") eqn:E; [exfalso|reflexivity].
    assert (Hc : calls_only (fun c => c <> v2_mark) (lambda_handler request VNone)).
    { apply (lambda_handler_calls _ _ _ v Hshape).
      - intros m _ H2 [= Hm]. contradiction.
      - discriminate.
      - rewrite E. apply v3_branch_calls. }
    apply (calls_only_trace h _ _ w) in Hc.
    rewrite Forall_forall in Hc. exact (Hc _ Hin eq_refl).
  - intros Hl.
    pose proof (lambda_handler_hands_over h request v w Hshape Hl) as Hh.
    split; [|exact Hh].
    destruct Hh as (w1 & tail & Ht & _). unfold routes_to. rewrite Ht.
    right. right. left. reflexivity.
Qed.

Lemma model_handler_reliable : reliable model_handler.
Proof. intros c w. destruct c; reflexivity. Qed.

Lemma dispatch_by_detected_version_witness :
  hands_over model_handler turn_on_request world0 v3_mark
    (handle_non_discovery_v3 turn_on_request).
Proof.
  destruct (dispatch_by_detected_version model_handler world0 turn_on_request
              (VStr "3")) as (_ & _ & H).
  - left. split; reflexivity.
  - exact (proj2 (H (reliable_logging_answers _ model_handler_reliable))).
Defined.

(** C3 as stated fails: a request with the version only in the top-level
    header, which reads "3", is handled by the v3 branch. *)
Lemma mislabelled_v2_request_misrouted :
  ~ no_misrouting model_handler mislabelled_v2_request world0.
Proof.
  intros [_ H2]. apply (H2 (VStr "3")).
  - split; reflexivity.
  - unfold routes_to. vm_compute. right. right. left. reflexivity.
Qed.

(** ** Directives without a branch *)

(** C1, amended: a v3 directive whose namespace is none of
    Alexa.PowerController, Alexa.ThermostatController, and whose pair is
    neither (Alexa, ReportState) nor (Alexa.Authorization, AcceptGrant), makes
    [handle_non_discovery_v3] return [None] without calling anything and
    without raising; through [lambda_handler], with reliable collaborators
    and a name other than "Discover", the answer is [None] as well: no
    envelope and no error. *)
Theorem unmatched_v3_returns_none (request namespace name : value) :
  path ["directive"; "header"; "namespace"] request = Some namespace ->
  path ["directive"; "header"; "name"] request = Some name ->
  unmatched_v3 namespace name = true ->
  handle_non_discovery_v3 request = Ret VNone /\
  forall W (h : call -> W -> res value * W) (w : W) context,
    reliable h ->
    path ["directive"; "header"; "payloadVersion"] request = Some (VStr "3") ->
    name <> VStr "Discover" ->
    exists w', run h (lambda_handler request context) w = (Ok VNone, w').
Proof.
  intros Hns Hn Hu.
  assert (Hnone : handle_non_discovery_v3 request = Ret VNone).
  { unfold handle_non_discovery_v3.
    rewrite (directive_header_some _ _ _ Hns), (directive_header_some _ _ _ Hn).
    cbn [bind]. unfold unmatched_v3 in Hu.
    destruct (eq_str namespace "Alexa.PowerController"); [discriminate|].
    destruct (eq_str namespace "Alexa.ThermostatController"); [discriminate|].
    destruct (eq_str namespace "Alexa"), (eq_str name "ReportState"),
      (eq_str namespace "Alexa.Authorization"), (eq_str name "AcceptGrant");
      simpl in Hu; try discriminate; reflexivity. }
  split; [exact Hnone|].
  intros W h w context Hr Hv Hd.
  destruct (lambda_handler_v3_returns h request context name Hr Hv Hn Hd w)
    as (w1 & Hl).
  apply (Hl VNone w1). rewrite Hnone. reflexivity.
Qed.

Lemma unmatched_v3_returns_none_witness :
  handle_non_discovery_v3 stray_v3_request = Ret VNone /\
  exists w', run model_handler (lambda_handler stray_v3_request VNone) world0
             = (Ok VNone, w').
Proof.
  destruct (unmatched_v3_returns_none stray_v3_request (VStr "Alexa") (VStr "Foo"))
    as [H1 H2]; [reflexivity | reflexivity | reflexivity |].
  split; [exact H1|].
  apply H2; [exact model_handler_reliable | reflexivity | discriminate].
Defined.

(** C1 as stated fails: the pair (Alexa, Foo) is in no dispatch table, and
    the handler answers [None] instead of reporting an error. *)
Lemma stray_v3_request_not_reported :
  ~ unsupported_reported model_handler stray_v3_request world0.
Proof. unfold unsupported_reported. vm_compute. discriminate. Qed.

(** ** Responses *)

Lemma pure_getitem (v : value) (k : string) : pure (getitem v k).
Proof.
  rewrite getitem_spec. destruct (lookup k v); [left|right]; eauto.
Qed.

Lemma pure_bind {A B} (m : prog A) (f : A -> prog B) :
  pure m -> (forall a, pure (f a)) -> pure (bind m f).
Proof.
  intros [[a ->]|[e ->]] Hf; simpl; [apply Hf | right; eauto].
Qed.

Lemma pure_directive_header (request : value) (k : string) :
  pure (directive_header request k).
Proof.
  unfold directive_header.
  repeat (apply pure_bind; [apply pure_getitem | intros ?]).
  apply pure_getitem.
Qed.

Lemma pure_directive_endpoint_id (request : value) :
  pure (directive_endpoint_id request).
Proof.
  unfold directive_endpoint_id.
  repeat (apply pure_bind; [apply pure_getitem | intros ?]).
  apply pure_getitem.
Qed.

Lemma pure_directive_payload (request : value) (k1 k2 : string) :
  pure (directive_payload request k1 k2).
Proof.
  unfold directive_payload.
  repeat (apply pure_bind; [apply pure_getitem | intros ?]).
  apply pure_getitem.
Qed.

Lemma pure_float_of_int (z : Z) : pure (float_of_int z).
Proof.
  unfold float_of_int, pure.
  destruct (SpecFloat.binary_normalize FloatOps.prec FloatOps.emax z 0 false);
    eauto.
Qed.

Lemma pure_py_add (a b : value) : pure (py_add a b).
Proof.
  unfold py_add.
  destruct a, b; cbn [int_of];
    try (left; eexists; reflexivity); try (right; eexists; reflexivity);
    (apply pure_bind; [apply pure_float_of_int | intros ?; left; eauto]).
Qed.

Section Responses.
Context {W : Type}.
Variable h : call -> W -> res value * W.

Lemma run_pure_ok {A} (p : prog A) (w w' : W) (a : A) :
  pure p -> run h p w = (Ok a, w') -> p = Ret a /\ w' = w.
Proof.
  intros [[x ->]|[e ->]]; simpl; intros [= <- <-]; split; reflexivity.
Qed.

Lemma run_property_state_ok (namespace name : string) (sample : prog value)
      (w w' : W) (p : value) :
  run h (property_state namespace name sample) w = (Ok p, w') ->
  exists v w1, run h sample w = (Ok v, w1) /\ is_property namespace name v p.
Proof.
  unfold property_state. intros H.
  apply run_bind_ok in H as (v & w1 & Hs & H).
  apply run_bind_ok in H as (ts & w2 & _ & H).
  apply run_ret_ok in H as [<- _].
  exists v, w1. split; [exact Hs|]. repeat split.
Qed.

Lemma run_celsius_ok (sample : prog value) (w w' : W) (v : value) :
  run h (celsius sample) w = (Ok v, w') ->
  exists x, run h sample w = (Ok x, w') /\ v = celsius_value x.
Proof.
  unfold celsius. intros H.
  apply run_bind_ok in H as (x & w1 & Hs & H).
  apply run_ret_ok in H as [<- <-]. eauto.
Qed.

Lemma run_celsius_property_ok (namespace name : string) (c : call)
      (w w' : W) (p : value) :
  run h (property_state namespace name (celsius (ext c))) w = (Ok p, w') ->
  exists x, is_property namespace name (celsius_value x) p.
Proof.
  intros H. apply run_property_state_ok in H as (v & w1 & Hs & Hp).
  apply run_celsius_ok in Hs as (x & _ & ->). eauto.
Qed.

Lemma run_power_controller_response_ok (request token : value) (v : string)
      (w w' : W) (response : value) :
  path ["directive"; "header"; "correlationToken"] request = Some token ->
  run h (power_controller_response request v) w = (Ok response, w') ->
  power_response token v response.
Proof.
  intros Ht H. unfold power_controller_response in H.
  apply run_bind_ok in H as (p & w1 & Hp & H).
  apply run_bind_ok in H as (messageId & w2 & _ & H).
  rewrite (directive_header_some _ _ _ Ht) in H. cbn [bind] in H.
  apply run_bind_ok in H as (endpointId & w3 & _ & H).
  apply run_ret_ok in H as [<- _].
  apply run_property_state_ok in Hp as (x & w4 & Hx & Hp).
  apply run_ret_ok in Hx as [<- _].
  split; [reflexivity|]. exists p. split; [reflexivity | exact Hp].
Qed.

Lemma run_thermostat_controller_response_ok (request : value) (w w' : W)
      (response : value) :
  run h (thermostat_controller_response request) w = (Ok response, w') ->
  exists m t r, thermostat_snapshot m t r response.
Proof.
  intros H. unfold thermostat_controller_response in H.
  apply run_bind_ok in H as (event & w0 & _ & H).
  apply run_bind_ok in H as (p1 & w1 & H1 & H).
  apply run_bind_ok in H as (p2 & w2 & H2 & H).
  apply run_bind_ok in H as (p3 & w3 & H3 & H).
  apply run_ret_ok in H as [<- _].
  apply run_property_state_ok in H1 as (m & _ & _ & H1).
  apply run_celsius_property_ok in H2 as (t & H2).
  apply run_celsius_property_ok in H3 as (r & H3).
  exists m, t, r, p1, p2, p3. repeat split; assumption || apply H1 || apply H2 || apply H3.
Qed.

Lemma run_state_report_ok (request : value) (w w' : W) (response : value) :
  run h (state_report request) w = (Ok response, w') ->
  exists m t pw r, state_snapshot m t pw r response.
Proof.
  intros H. unfold state_report in H.
  apply run_bind_ok in H as (event & w0 & _ & H).
  apply run_bind_ok in H as (p1 & w1 & H1 & H).
  apply run_bind_ok in H as (p2 & w2 & H2 & H).
  apply run_bind_ok in H as (p3 & w3 & H3 & H).
  apply run_bind_ok in H as (p4 & w4 & H4 & H).
  apply run_bind_ok in H as (p5 & w5 & H5 & H).
  apply run_ret_ok in H as [<- _].
  apply run_property_state_ok in H1 as (m & _ & _ & H1).
  apply run_celsius_property_ok in H2 as (t & H2).
  apply run_property_state_ok in H3 as (pw & _ & _ & H3).
  apply run_celsius_property_ok in H4 as (r & H4).
  apply run_property_state_ok in H5 as (x & w6 & Hx & H5).
  apply run_ret_ok in Hx as [<- _].
  exists m, t, pw, r, p1, p2, p3, p4, p5.
  split; [reflexivity|]. tauto.
Qed.

(** *** With reliable collaborators the responses are produced *)

Hypothesis h_reliable : reliable h.

Lemma run_get_utc_timestamp_returns (seconds : value) (w : W) :
  exists ts w', run h (get_utc_timestamp seconds) w = (Ok ts, w').
Proof.
  unfold get_utc_timestamp. apply run_bind_returns.
  destruct (run_ext_reliable h (TimeGmtime seconds) w h_reliable)
    as (t & w1 & E).
  exists t, w1. split; [exact E|]. apply run_ext_reliable, h_reliable.
Qed.

Lemma run_property_state_returns (namespace name : string)
      (sample : prog value) (w : W) :
  (exists v w1, run h sample w = (Ok v, w1)) ->
  exists p w', run h (property_state namespace name sample) w = (Ok p, w').
Proof.
  intros (v & w1 & Hs). unfold property_state. apply run_bind_returns.
  exists v, w1. split; [exact Hs|]. apply run_bind_returns.
  destruct (run_get_utc_timestamp_returns VNone w1) as (ts & w2 & E).
  exists ts, w2. split; [exact E|]. simpl. eauto.
Qed.

Lemma run_celsius_returns (c : call) (w : W) :
  exists v w1, run h (celsius (ext c)) w = (Ok v, w1).
Proof.
  unfold celsius. apply run_bind_returns.
  destruct (run_ext_reliable h c w h_reliable) as (x & w1 & E).
  exists x, w1. split; [exact E|]. simpl. eauto.
Qed.

Lemma run_event_block_returns (request token endpointId : value)
      (name : string) (w : W) :
  path ["directive"; "header"; "correlationToken"] request = Some token ->
  path ["directive"; "endpoint"; "endpointId"] request = Some endpointId ->
  exists event w', run h (event_block request name) w = (Ok event, w').
Proof.
  intros Ht He. unfold event_block, get_uuid. apply run_bind_returns.
  destruct (run_ext_reliable h Uuid4Str w h_reliable) as (u & w1 & E).
  exists u, w1. split; [exact E|].
  rewrite (directive_header_some _ _ _ Ht),
    (directive_endpoint_id_some _ _ He).
  simpl. eauto.
Qed.

Lemma run_power_controller_response_returns (request token endpointId : value)
      (v : string) (w : W) :
  path ["directive"; "header"; "correlationToken"] request = Some token ->
  path ["directive"; "endpoint"; "endpointId"] request = Some endpointId ->
  exists response w',
    run h (power_controller_response request v) w = (Ok response, w').
Proof.
  intros Ht He. unfold power_controller_response, get_uuid.
  apply run_bind_returns.
  destruct (run_property_state_returns "Alexa.PowerController" "powerState"
              (Ret (VStr v)) w) as (p & w1 & Ep); [simpl; eauto|].
  exists p, w1. split; [exact Ep|]. apply run_bind_returns.
  destruct (run_ext_reliable h Uuid4Str w1 h_reliable) as (u & w2 & E).
  exists u, w2. split; [exact E|].
  rewrite (directive_header_some _ _ _ Ht),
    (directive_endpoint_id_some _ _ He).
  simpl. eauto.
Qed.

Lemma run_thermostat_controller_response_returns
      (request token endpointId : value) (w : W) :
  path ["directive"; "header"; "correlationToken"] request = Some token ->
  path ["directive"; "endpoint"; "endpointId"] request = Some endpointId ->
  exists response w',
    run h (thermostat_controller_response request) w = (Ok response, w').
Proof.
  intros Ht He. unfold thermostat_controller_response.
  apply run_bind_returns.
  destruct (run_event_block_returns request token endpointId "Response" w Ht He)
    as (event & w0 & E0).
  exists event, w0. split; [exact E0|]. apply run_bind_returns.
  destruct (run_property_state_returns "Alexa.ThermostatController"
              "thermostatMode" (ext AcGetMode) w0) as (p1 & w1 & E1);
    [apply run_ext_reliable, h_reliable|].
  exists p1, w1. split; [exact E1|]. apply run_bind_returns.
  destruct (run_property_state_returns "Alexa.ThermostatController"
              "targetSetpoint" (celsius (ext AcGetTemperature)) w1)
    as (p2 & w2 & E2); [apply run_celsius_returns|].
  exists p2, w2. split; [exact E2|]. apply run_bind_returns.
  destruct (run_property_state_returns "Alexa.TemperatureSensor"
              "temperature" (celsius (ext EnvGetTemperature)) w2)
    as (p3 & w3 & E3); [apply run_celsius_returns|].
  exists p3, w3. split; [exact E3|]. simpl. eauto.
Qed.

Lemma run_state_report_returns (request token endpointId : value) (w : W) :
  path ["directive"; "header"; "correlationToken"] request = Some token ->
  path ["directive"; "endpoint"; "endpointId"] request = Some endpointId ->
  exists response w', run h (state_report request) w = (Ok response, w').
Proof.
  intros Ht He. unfold state_report.
  apply run_bind_returns.
  destruct (run_event_block_returns request token endpointId "StateReport" w
              Ht He) as (event & w0 & E0).
  exists event, w0. split; [exact E0|]. apply run_bind_returns.
  destruct (run_property_state_returns "Alexa.ThermostatController"
              "thermostatMode" (ext AcGetMode) w0) as (p1 & w1 & E1);
    [apply run_ext_reliable, h_reliable|].
  exists p1, w1. split; [exact E1|]. apply run_bind_returns.
  destruct (run_property_state_returns "Alexa.ThermostatController"
              "targetSetpoint" (celsius (ext AcGetTemperature)) w1)
    as (p2 & w2 & E2); [apply run_celsius_returns|].
  exists p2, w2. split; [exact E2|]. apply run_bind_returns.
  destruct (run_property_state_returns "Alexa.PowerController"
              "powerState" (ext AcGetPower) w2) as (p3 & w3 & E3);
    [apply run_ext_reliable, h_reliable|].
  exists p3, w3. split; [exact E3|]. apply run_bind_returns.
  destruct (run_property_state_returns "Alexa.TemperatureSensor"
              "temperature" (celsius (ext EnvGetTemperature)) w3)
    as (p4 & w4 & E4); [apply run_celsius_returns|].
  exists p4, w4. split; [exact E4|]. apply run_bind_returns.
  destruct (run_property_state_returns "Alexa.EndpointHealth"
              "connectivity" (Ret (VDict [ ("value", VStr "OK") ])) w4)
    as (p5 & w5 & E5); [simpl; eauto|].
  exists p5, w5. split; [exact E5|]. simpl. eauto.
Qed.
End Responses.

(** ** The branches of the v3 handler *)

Lemma handle_non_discovery_v3_power (request name : value) :
  path ["directive"; "header"; "namespace"] request
    = Some (VStr "Alexa.PowerController") ->
  path ["directive"; "header"; "name"] request = Some name ->
  handle_non_discovery_v3 request =
  if eq_str name "TurnOn"
  then ext AcSetPowerOn ;;; power_controller_response request "ON"
  else ext AcSetPowerOff ;;; power_controller_response request "OFF".
Proof.
  intros Hns Hn. unfold handle_non_discovery_v3.
  rewrite (directive_header_some _ _ _ Hns), (directive_header_some _ _ _ Hn).
  reflexivity.
Qed.

Lemma handle_non_discovery_v3_thermostat (request name : value) :
  path ["directive"; "header"; "namespace"] request
    = Some (VStr "Alexa.ThermostatController") ->
  path ["directive"; "header"; "name"] request = Some name ->
  handle_non_discovery_v3 request =
  thermostat_controller_action request name ;;;
  thermostat_controller_response request.
Proof.
  intros Hns Hn. unfold handle_non_discovery_v3.
  rewrite (directive_header_some _ _ _ Hns), (directive_header_some _ _ _ Hn).
  reflexivity.
Qed.

Lemma handle_non_discovery_v3_report (request : value) :
  path ["directive"; "header"; "namespace"] request = Some (VStr "Alexa") ->
  path ["directive"; "header"; "name"] request = Some (VStr "ReportState") ->
  handle_non_discovery_v3 request = state_report request.
Proof.
  intros Hns Hn. unfold handle_non_discovery_v3.
  rewrite (directive_header_some _ _ _ Hns), (directive_header_some _ _ _ Hn).
  reflexivity.
Qed.

(** ** The test double *)

Lemma model_reads_keep_device {A} (p : prog A) (w : world) :
  calls_only reads_only p ->
  dev (snd (run model_handler p w)) = dev w /\
  room (snd (run model_handler p w)) = room w.
Proof.
  revert w. induction p as [a|e|c k IH]; intros w Hp; simpl; auto.
  destruct Hp as [Hc Hk].
  destruct c; try discriminate Hc; simpl;
    match goal with
    | |- context [run model_handler (k ?r) ?w1] =>
        destruct (IH r w1 (Hk r)) as [Hd Hr]; rewrite Hd, Hr
    end; split; reflexivity.
Qed.

Lemma model_thermostat_controller_response (request : value) (w w' : world)
      (response : value) :
  run model_handler (thermostat_controller_response request) w
    = (Ok response, w') ->
  thermostat_snapshot (mode (dev w')) (temperature (dev w')) (room w') response.
Proof.
  intros H.
  destruct (model_reads_keep_device (thermostat_controller_response request) w)
    as [Hd Hr];
    [apply calls_only_thermostat_controller_response, allows_reads_reads_only|].
  rewrite H in Hd, Hr. simpl in Hd, Hr. rewrite Hd, Hr. clear Hd Hr.
  revert H. unfold thermostat_controller_response, event_block, get_uuid.
  destruct (pure_directive_header request "correlationToken")
    as [[t ->]|[e ->]]; [|discriminate].
  destruct (pure_directive_endpoint_id request) as [[i ->]|[e ->]];
    [|discriminate].
  simpl. intros [= <- _].
  eexists _, _, _. split; [reflexivity|]. repeat split.
Qed.

Lemma model_state_report (request : value) (w w' : world) (response : value) :
  run model_handler (state_report request) w = (Ok response, w') ->
  state_snapshot (mode (dev w)) (temperature (dev w)) (power (dev w)) (room w)
    response.
Proof.
  unfold state_report, event_block, get_uuid.
  destruct (pure_directive_header request "correlationToken")
    as [[t ->]|[e ->]]; [|discriminate].
  destruct (pure_directive_endpoint_id request) as [[i ->]|[e ->]];
    [|discriminate].
  simpl. intros [= <- _].
  eexists _, _, _, _, _. split; [reflexivity|]. repeat split.
Qed.

(** ** Alexa.PowerController *)

(** C8: a v3 Alexa.PowerController/TurnOn directive that carries a
    correlation token is answered, whenever it is answered, with that token
    in [event.header.correlationToken] and with exactly one property,
    Alexa.PowerController/powerState = "ON"; with reliable collaborators and
    an endpoint id it is answered, also through [lambda_handler]. *)
Theorem turn_on_response (request token : value) :
  path ["directive"; "header"; "namespace"] request
    = Some (VStr "Alexa.PowerController") ->
  path ["directive"; "header"; "name"] request = Some (VStr "TurnOn") ->
  path ["directive"; "header"; "correlationToken"] request = Some token ->
  (forall W (h : call -> W -> res value * W) w response w',
     run h (handle_non_discovery_v3 request) w = (Ok response, w') ->
     power_response token "ON" response) /\
  (forall W (h : call -> W -> res value * W) w endpointId,
     reliable h ->
     path ["directive"; "endpoint"; "endpointId"] request = Some endpointId ->
     (exists response w',
        run h (handle_non_discovery_v3 request) w = (Ok response, w')) /\
     (forall context,
        path ["directive"; "header"; "payloadVersion"] request
          = Some (VStr "3") ->
        exists response w',
          run h (lambda_handler request context) w = (Ok response, w') /\
          power_response token "ON" response)).
Proof.
  intros Hns Hn Ht.
  pose proof (handle_non_discovery_v3_power request _ Hns Hn) as Heq.
  change (eq_str (VStr "TurnOn") "TurnOn") with true in Heq. cbv iota in Heq.
  assert (Hok : forall W (h : call -> W -> res value * W) w response w',
             run h (handle_non_discovery_v3 request) w = (Ok response, w') ->
             power_response token "ON" response).
  { intros W h w response w' H. rewrite Heq in H.
    apply run_bind_ok in H as (x & w1 & _ & H).
    exact (run_power_controller_response_ok h _ _ _ _ _ _ Ht H). }
  assert (Hret : forall W (h : call -> W -> res value * W) w endpointId,
             reliable h ->
             path ["directive"; "endpoint"; "endpointId"] request
               = Some endpointId ->
             exists response w',
               run h (handle_non_discovery_v3 request) w = (Ok response, w')).
  { intros W h w endpointId Hr He. rewrite Heq. apply run_bind_returns.
    destruct (run_ext_reliable h AcSetPowerOn w Hr) as (x & w1 & E).
    exists x, w1. split; [exact E|].
    exact (run_power_controller_response_returns h Hr _ _ _ _ _ Ht He). }
  split; [exact Hok|].
  intros W h w endpointId Hr He. split; [exact (Hret W h w endpointId Hr He)|].
  intros context Hv.
  destruct (lambda_handler_v3_returns h request context _ Hr Hv Hn) with (w := w)
    as (w1 & Hl); [discriminate|].
  destruct (Hret W h w1 endpointId Hr He) as (response & w2 & Hrun).
  destruct (Hl _ _ Hrun) as (w3 & Hrun').
  exists response, w3. split; [exact Hrun'|]. exact (Hok _ _ _ _ _ Hrun).
Qed.

Lemma turn_on_response_witness :
  exists response w',
    run model_handler (lambda_handler turn_on_request VNone) world0
      = (Ok response, w') /\
    power_response (VStr "tok-1") "ON" response.
Proof.
  destruct (turn_on_response turn_on_request (VStr "tok-1")) as [_ H];
    [reflexivity | reflexivity | reflexivity |].
  destruct (H _ model_handler world0 (VStr "endpoint-004")
              model_handler_reliable eq_refl) as [_ H'].
  exact (H' VNone eq_refl).
Defined.

Lemma allows_reads_not (c : call) :
  is_mutator c = true -> allows_reads (fun c' => c' <> c).
Proof.
  intros Hc. unfold allows_reads.
  repeat match goal with |- _ /\ _ => split end;
    intros; intros E; rewrite <- E in Hc; discriminate Hc.
Qed.

(** Inside [handle_non_discovery_v3] every name other than "TurnOn" takes the
    branch that switches off. *)
Lemma handle_non_discovery_v3_switches_off (request name : value) :
  path ["directive"; "header"; "namespace"] request
    = Some (VStr "Alexa.PowerController") ->
  path ["directive"; "header"; "name"] request = Some name ->
  name <> VStr "TurnOn" ->
  (forall W (h : call -> W -> res value * W) w,
     hd_error (trace h (handle_non_discovery_v3 request) w) = Some AcSetPowerOff /\
     ~ In AcSetPowerOn (trace h (handle_non_discovery_v3 request) w)) /\
  (forall W (h : call -> W -> res value * W) w token response w',
     path ["directive"; "header"; "correlationToken"] request = Some token ->
     run h (handle_non_discovery_v3 request) w = (Ok response, w') ->
     power_response token "OFF" response) /\
  (forall W (h : call -> W -> res value * W) w token endpointId,
     reliable h ->
     path ["directive"; "header"; "correlationToken"] request = Some token ->
     path ["directive"; "endpoint"; "endpointId"] request = Some endpointId ->
     exists response w',
       run h (handle_non_discovery_v3 request) w = (Ok response, w')) /\
  (forall w,
     power (dev (snd (run model_handler (handle_non_discovery_v3 request) w)))
     = VStr "OFF").
Proof.
  intros Hns Hn Hne. apply eq_str_false in Hne.
  pose proof (handle_non_discovery_v3_power request _ Hns Hn) as Heq.
  rewrite Hne in Heq. rewrite Heq. clear Heq.
  split; [|split; [|split]].
  - intros W h w. split.
    + simpl. destruct (h AcSetPowerOff w) as [r w1]. reflexivity.
    + intros Hin.
      assert (Hc : calls_only (fun c => c <> AcSetPowerOn)
                     (ext AcSetPowerOff ;;;
                      power_controller_response request "OFF")).
      { apply calls_only_bind; [apply calls_only_ext; discriminate|intros _].
        apply calls_only_power_controller_response, allows_reads_not.
        reflexivity. }
      apply (calls_only_trace h _ _ w) in Hc.
      rewrite Forall_forall in Hc. exact (Hc _ Hin eq_refl).
  - intros W h w token response w' Ht H.
    apply run_bind_ok in H as (x & w1 & _ & H).
    exact (run_power_controller_response_ok h _ _ _ _ _ _ Ht H).
  - intros W h w token endpointId Hr Ht He. apply run_bind_returns.
    destruct (run_ext_reliable h AcSetPowerOff w Hr) as (x & w1 & E).
    exists x, w1. split; [exact E|].
    exact (run_power_controller_response_returns h Hr _ _ _ _ _ Ht He).
  - intros w. rewrite run_bind.
    change (run model_handler (ext AcSetPowerOff) w)
      with (Ok VNone,
            set_dev w (Device (VStr "OFF") (temperature (dev w))
                              (mode (dev w)))).
    cbv iota.
    destruct (model_reads_keep_device
                (power_controller_response request "OFF")
                (set_dev w (Device (VStr "OFF") (temperature (dev w))
                                   (mode (dev w))))) as [Hd _];
      [apply calls_only_power_controller_response, allows_reads_reads_only|].
    rewrite Hd. reflexivity.
Qed.

(** C10, amended: a v3 directive of the namespace Alexa.PowerController
    whose name is neither "TurnOn" nor "Discover", whether "TurnOff" or not,
    turns the device off.  When the logger takes its lines the entry point
    hands it over to [handle_non_discovery_v3], whose first call is
    [set_power_off]; [set_power_on] is never called, and a response reports
    powerState = "OFF" with the directive's token.  With reliable
    collaborators, a token and an endpoint id the device is switched off
    and that response is produced, rather than an error. *)
Theorem power_controller_other_names (request name : value) :
  path ["directive"; "header"; "namespace"] request
    = Some (VStr "Alexa.PowerController") ->
  path ["directive"; "header"; "name"] request = Some name ->
  path ["directive"; "header"; "payloadVersion"] request = Some (VStr "3") ->
  name <> VStr "TurnOn" ->
  name <> VStr "Discover" ->
  forall W (h : call -> W -> res value * W) w,
    (logging_answers h ->
     hands_over h request w v3_mark (handle_non_discovery_v3 request) /\
     nth_error (trace h (lambda_handler request VNone) w) 3
       = Some AcSetPowerOff /\
     ~ In AcSetPowerOn (trace h (lambda_handler request VNone) w) /\
     (forall token response w',
        path ["directive"; "header"; "correlationToken"] request = Some token ->
        run h (lambda_handler request VNone) w = (Ok response, w') ->
        power_response token "OFF" response)) /\
    (reliable h ->
     forall token endpointId,
       path ["directive"; "header"; "correlationToken"] request = Some token ->
       path ["directive"; "endpoint"; "endpointId"] request = Some endpointId ->
       switches_off h request w) /\
    hd_error (trace h (handle_non_discovery_v3 request) w) = Some AcSetPowerOff /\
    ~ In AcSetPowerOn (trace h (handle_non_discovery_v3 request) w) /\
    (forall token response w',
       path ["directive"; "header"; "correlationToken"] request = Some token ->
       run h (handle_non_discovery_v3 request) w = (Ok response, w') ->
       power_response token "OFF" response).
Proof.
  intros Hns Hn Hv Hne Hd W h w.
  destruct (handle_non_discovery_v3_switches_off request name Hns Hn Hne)
    as (H1 & H2 & H3 & _).
  apply eq_str_false in Hd.
  pose proof (get_directive_version_spec request) as Hg.
  unfold version_rule in Hg. rewrite Hv in Hg.
  assert (Hover : logging_answers h ->
            hands_over h request w v3_mark (handle_non_discovery_v3 request)).
  { intros Hl.
    pose proof (lambda_handler_hands_over h request (VStr "3") w Hg Hl) as Hh.
    change (eq_str (VStr "3") "3") with true in Hh. cbv iota in Hh.
    rewrite (directive_header_some _ _ _ Hn) in Hh. cbn [bind] in Hh.
    rewrite Hd in Hh. exact Hh. }
  assert (Hfourth : logging_answers h ->
            nth_error (trace h (lambda_handler request VNone) w) 3
            = Some AcSetPowerOff).
  { intros Hl. destruct (Hover Hl) as (w1 & tail & Ht & _). rewrite Ht.
    cbn [app nth_error]. destruct (H1 W h w1) as [Hhd _].
    destruct (trace h (handle_non_discovery_v3 request) w1) as [|c l];
      simpl in Hhd; [discriminate Hhd|].
    injection Hhd as ->. reflexivity. }
  assert (Hresp : logging_answers h ->
            forall token response w',
              path ["directive"; "header"; "correlationToken"] request
                = Some token ->
              run h (lambda_handler request VNone) w = (Ok response, w') ->
              power_response token "OFF" response).
  { intros Hl token response w' Htok Hrun.
    destruct (Hover Hl) as (w1 & tail & _ & _ & Hres).
    rewrite Hrun in Hres.
    destruct (run h (handle_non_discovery_v3 request) w1) as [[r|e] w2] eqn:E;
      cbn [fst] in Hres; [|discriminate Hres].
    injection Hres as <-. exact (H2 W h w1 token response w2 Htok E). }
  split; [|split; [|split; [apply H1|split; [apply H1|apply H2]]]].
  - intros Hl. split; [exact (Hover Hl)|]. split; [exact (Hfourth Hl)|].
    split; [|exact (Hresp Hl)].
    destruct (Hover Hl) as (w1 & tail & Ht & Hlog & _). rewrite Ht.
    intros Hin. simpl in Hin. unfold v3_mark in Hin.
    destruct Hin as [Hin|[Hin|[Hin|Hin]]]; try discriminate Hin.
    apply in_app_or in Hin as [Hin|Hin].
    + exact (proj2 (H1 W h w1) Hin).
    + rewrite forallb_forall in Hlog. specialize (Hlog _ Hin).
      discriminate Hlog.
  - intros Hr token endpointId Htok He.
    pose proof (reliable_logging_answers h Hr) as Hl.
    destruct (Hover Hl) as (w1 & tail & _ & _ & Hres).
    destruct (H3 W h w1 token endpointId Hr Htok He) as (response & w2 & E).
    rewrite E in Hres.
    destruct (run h (lambda_handler request VNone) w) as [r w'] eqn:El.
    cbn [fst] in Hres. subst r.
    destruct (Hresp Hl token response w' Htok eq_refl) as [_ (p & Hp & Hprop)].
    split.
    + exact (nth_error_In _ _ (Hfourth Hl)).
    + exists response, w', p. repeat split; try assumption; apply Hprop.
Qed.

Lemma power_controller_other_names_witness :
  switches_off model_handler toggle_request world_on.
Proof.
  destruct (power_controller_other_names toggle_request (VStr "Toggle")
              eq_refl eq_refl eq_refl) with (h := model_handler) (w := world_on)
    as (_ & H & _); [discriminate | discriminate |].
  exact (H model_handler_reliable (VStr "tok-1") (VStr "endpoint-004")
           eq_refl eq_refl).
Defined.

(** C10 as stated fails: a v3 Alexa.PowerController directive named
    "Discover" is not "TurnOn", yet it is answered by discovery:
    [set_power_off] is never called. *)
Lemma discover_power_request_not_switched_off :
  ~ switches_off model_handler discover_power_request world_on.
Proof.
  intros [Hin _]. vm_compute in Hin.
  repeat (destruct Hin as [Hin|Hin]; [discriminate Hin|]).
  exact Hin.
Qed.

Example discover_power_request_leaves_on :
  power (dev (snd (run model_handler
                     (lambda_handler discover_power_request VNone) world_on)))
  = VStr "ON".
Proof. vm_compute. reflexivity. Qed.

(** ** Alexa.ThermostatController *)

Lemma thermostat_controller_snapshot_any_name (request name : value) :
  path ["directive"; "header"; "namespace"] request
    = Some (VStr "Alexa.ThermostatController") ->
  path ["directive"; "header"; "name"] request = Some name ->
  (forall W (h : call -> W -> res value * W) w response w',
     run h (handle_non_discovery_v3 request) w = (Ok response, w') ->
     exists m t r, thermostat_snapshot m t r response) /\
  (forall w response w',
     run model_handler (handle_non_discovery_v3 request) w = (Ok response, w') ->
     thermostat_snapshot (mode (dev w')) (temperature (dev w')) (room w')
       response) /\
  (forall W (h : call -> W -> res value * W) w w1 token endpointId,
     reliable h ->
     path ["directive"; "header"; "correlationToken"] request = Some token ->
     path ["directive"; "endpoint"; "endpointId"] request = Some endpointId ->
     run h (thermostat_controller_action request name) w = (Ok tt, w1) ->
     exists response w',
       run h (handle_non_discovery_v3 request) w = (Ok response, w')).
Proof.
  intros Hns Hn.
  rewrite (handle_non_discovery_v3_thermostat request name Hns Hn).
  split; [|split].
  - intros W h w response w' H.
    apply run_bind_ok in H as (x & w1 & _ & H).
    exact (run_thermostat_controller_response_ok h _ _ _ _ H).
  - intros w response w' H.
    apply run_bind_ok in H as (x & w1 & _ & H).
    exact (model_thermostat_controller_response _ _ _ _ H).
  - intros W h w w1 token endpointId Hr Ht He Ha.
    apply run_bind_returns. exists tt, w1. split; [exact Ha|].
    exact (run_thermostat_controller_response_returns h Hr _ _ _ _ Ht He).
Qed.

(** C6: a v3 Alexa.ThermostatController directive named
    SetTargetTemperature, AdjustTargetTemperature or SetThermostatMode is
    answered, whenever it is answered, with exactly three properties in the
    order thermostatMode, targetSetpoint, temperature; against the test
    double their values are the mode, the setpoint and the room temperature
    of the state the handler leaves behind, that is the state after the
    mutation; once the mutation has gone through, reliable collaborators, a
    token and an endpoint id give a response. *)
Theorem thermostat_controller_snapshot (request name : value) :
  path ["directive"; "header"; "namespace"] request
    = Some (VStr "Alexa.ThermostatController") ->
  path ["directive"; "header"; "name"] request = Some name ->
  thermostat_directive name ->
  (forall W (h : call -> W -> res value * W) w response w',
     run h (handle_non_discovery_v3 request) w = (Ok response, w') ->
     exists m t r, thermostat_snapshot m t r response) /\
  (forall w response w',
     run model_handler (handle_non_discovery_v3 request) w = (Ok response, w') ->
     thermostat_snapshot (mode (dev w')) (temperature (dev w')) (room w')
       response) /\
  (forall W (h : call -> W -> res value * W) w w1 token endpointId,
     reliable h ->
     path ["directive"; "header"; "correlationToken"] request = Some token ->
     path ["directive"; "endpoint"; "endpointId"] request = Some endpointId ->
     run h (thermostat_controller_action request name) w = (Ok tt, w1) ->
     exists response w',
       run h (handle_non_discovery_v3 request) w = (Ok response, w')).
Proof.
  intros Hns Hn _. exact (thermostat_controller_snapshot_any_name _ _ Hns Hn).
Qed.

Lemma thermostat_controller_snapshot_witness :
  exists response w',
    run model_handler (handle_non_discovery_v3 set_temperature_request) world0
      = (Ok response, w') /\
    temperature (dev w') = VFloat 22.5 /\
    thermostat_snapshot (VStr "COOL") (VFloat 22.5) (VFloat 27) response.
Proof.
  destruct (thermostat_controller_snapshot set_temperature_request
              (VStr "SetTargetTemperature")) as (_ & H & _);
    [reflexivity | reflexivity | left; reflexivity |].
  specialize (H world0).
  remember (run model_handler (handle_non_discovery_v3 set_temperature_request)
              world0) as r eqn:E.
  vm_compute in E. subst r.
  eexists _, _. split; [reflexivity|]. split; [reflexivity|].
  exact (H _ _ eq_refl).
Defined.

Lemma set_thermostat_mode_program (request m : value) :
  path ["directive"; "header"; "namespace"] request
    = Some (VStr "Alexa.ThermostatController") ->
  path ["directive"; "header"; "name"] request
    = Some (VStr "SetThermostatMode") ->
  path ["directive"; "payload"; "thermostatMode"; "value"] request = Some m ->
  handle_non_discovery_v3 request =
  (if eq_str m "HEAT" then ext AcSetModeHeat ;;; Ret tt
   else if eq_str m "COOL" then ext AcSetModeCool ;;; Ret tt
   else Ret tt) ;;;
  thermostat_controller_response request.
Proof.
  intros Hns Hn Hm.
  rewrite (handle_non_discovery_v3_thermostat request _ Hns Hn).
  unfold thermostat_controller_action.
  change (eq_str (VStr "SetThermostatMode") "SetTargetTemperature") with false.
  change (eq_str (VStr "SetThermostatMode") "AdjustTargetTemperature") with false.
  change (eq_str (VStr "SetThermostatMode") "SetThermostatMode") with true.
  cbv iota. rewrite (directive_payload_some _ _ _ _ Hm). reflexivity.
Qed.

(** C9: for a v3 Alexa.ThermostatController/SetThermostatMode directive with
    payload value [m], [set_mode_heat] is called exactly when [m] is "HEAT"
    and [set_mode_cool] exactly when [m] is "COOL"; for any other [m] the
    handler calls no setter at all, and the state of the test double's device
    is what it was. *)
Theorem set_thermostat_mode_effect (request m : value) :
  path ["directive"; "header"; "namespace"] request
    = Some (VStr "Alexa.ThermostatController") ->
  path ["directive"; "header"; "name"] request
    = Some (VStr "SetThermostatMode") ->
  path ["directive"; "payload"; "thermostatMode"; "value"] request = Some m ->
  (forall W (h : call -> W -> res value * W) w,
     (In AcSetModeHeat (trace h (handle_non_discovery_v3 request) w)
      <-> m = VStr "HEAT") /\
     (In AcSetModeCool (trace h (handle_non_discovery_v3 request) w)
      <-> m = VStr "COOL") /\
     (m <> VStr "HEAT" -> m <> VStr "COOL" ->
      Forall reads_only (trace h (handle_non_discovery_v3 request) w))) /\
  (m <> VStr "HEAT" -> m <> VStr "COOL" ->
   forall w,
     dev (snd (run model_handler (handle_non_discovery_v3 request) w)) = dev w).
Proof.
  intros Hns Hn Hm.
  rewrite (set_thermostat_mode_program request m Hns Hn Hm).
  assert (Hresp : forall c, is_mutator c = true ->
            calls_only (fun c' => c' <> c)
              (thermostat_controller_response request)).
  { intros c Hc.
    apply calls_only_thermostat_controller_response, allows_reads_not, Hc. }
  split.
  - intros W h w. split; [|split].
    + rewrite <- eq_str_true. split.
      * intros Hin. destruct (eq_str m "HEAT"); [reflexivity|exfalso].
        assert (Hc : calls_only (fun c => c <> AcSetModeHeat)
                  ((if eq_str m "COOL" then ext AcSetModeCool ;;; Ret tt
                    else Ret tt) ;;; thermostat_controller_response request)).
        { apply calls_only_bind; [|intros _; apply Hresp; reflexivity].
          calls_only_tac; discriminate. }
        apply (calls_only_trace h _ _ w) in Hc.
        rewrite Forall_forall in Hc. exact (Hc _ Hin eq_refl).
      * intros ->. rewrite !trace_bind.
        apply in_or_app; left. apply in_or_app; left. apply trace_ext_head.
    + rewrite <- eq_str_true. split.
      * intros Hin. destruct (eq_str m "COOL"); [reflexivity|exfalso].
        assert (Hc : calls_only (fun c => c <> AcSetModeCool)
                  ((if eq_str m "HEAT" then ext AcSetModeHeat ;;; Ret tt
                    else Ret tt) ;;; thermostat_controller_response request)).
        { apply calls_only_bind; [|intros _; apply Hresp; reflexivity].
          calls_only_tac; discriminate. }
        apply (calls_only_trace h _ _ w) in Hc.
        rewrite Forall_forall in Hc. exact (Hc _ Hin eq_refl).
      * intros Hc. apply eq_str_true in Hc. subst m.
        change (eq_str (VStr "COOL") "HEAT") with false.
        change (eq_str (VStr "COOL") "COOL") with true. cbv iota.
        rewrite !trace_bind.
        apply in_or_app; left. apply in_or_app; left. apply trace_ext_head.
    + intros Hh Hc. apply eq_str_false in Hh, Hc. rewrite Hh, Hc.
      apply calls_only_trace. apply calls_only_bind; [exact I|intros _].
      apply calls_only_thermostat_controller_response, allows_reads_reads_only.
  - intros Hh Hc w. apply eq_str_false in Hh, Hc. rewrite Hh, Hc.
    apply model_reads_keep_device.
    apply calls_only_bind; [exact I|intros _].
    apply calls_only_thermostat_controller_response, allows_reads_reads_only.
Qed.

Lemma set_thermostat_mode_effect_witness :
  dev (snd (run model_handler
              (handle_non_discovery_v3 (set_mode_request "AUTO")) world0))
  = dev world0.
Proof.
  destruct (set_thermostat_mode_effect (set_mode_request "AUTO") (VStr "AUTO"))
    as [_ H]; [reflexivity | reflexivity | reflexivity |].
  apply H; discriminate.
Defined.

(** ** Alexa/ReportState *)

(** C7: a v3 Alexa/ReportState directive makes the handler call no setter of
    the device, so that the test double's device is left as it was, and is
    answered, whenever it is answered, with exactly five properties in the
    order thermostatMode, targetSetpoint, powerState, temperature,
    connectivity; with reliable collaborators, a token and an endpoint id it
    is answered. *)
Theorem report_state_reads_only (request : value) :
  path ["directive"; "header"; "namespace"] request = Some (VStr "Alexa") ->
  path ["directive"; "header"; "name"] request = Some (VStr "ReportState") ->
  (forall W (h : call -> W -> res value * W) w,
     Forall reads_only (trace h (handle_non_discovery_v3 request) w)) /\
  (forall w,
     dev (snd (run model_handler (handle_non_discovery_v3 request) w)) = dev w) /\
  (forall W (h : call -> W -> res value * W) w response w',
     run h (handle_non_discovery_v3 request) w = (Ok response, w') ->
     exists m t pw r, state_snapshot m t pw r response) /\
  (forall w response w',
     run model_handler (handle_non_discovery_v3 request) w = (Ok response, w') ->
     state_snapshot (mode (dev w)) (temperature (dev w)) (power (dev w))
       (room w) response) /\
  (forall W (h : call -> W -> res value * W) w token endpointId,
     reliable h ->
     path ["directive"; "header"; "correlationToken"] request = Some token ->
     path ["directive"; "endpoint"; "endpointId"] request = Some endpointId ->
     exists response w',
       run h (handle_non_discovery_v3 request) w = (Ok response, w')).
Proof.
  intros Hns Hn. rewrite (handle_non_discovery_v3_report request Hns Hn).
  pose proof (calls_only_state_report reads_only request
                allows_reads_reads_only) as Hc.
  repeat match goal with |- _ /\ _ => split end.
  - intros W h w. apply calls_only_trace, Hc.
  - intros w. apply model_reads_keep_device, Hc.
  - intros W h w response w' H. exact (run_state_report_ok h _ _ _ _ H).
  - intros w response w' H. exact (model_state_report _ _ _ _ H).
  - intros W h w token endpointId Hr Ht He.
    exact (run_state_report_returns h Hr _ _ _ _ Ht He).
Qed.

Lemma report_state_reads_only_witness :
  exists response w',
    run model_handler (handle_non_discovery_v3 report_state_request) world0
      = (Ok response, w') /\
    dev w' = dev world0 /\
    state_snapshot (VStr "COOL") (VFloat 25) (VStr "OFF") (VFloat 27) response.
Proof.
  destruct (report_state_reads_only report_state_request)
    as (_ & _ & _ & H & _); [reflexivity | reflexivity |].
  specialize (H world0).
  remember (run model_handler (handle_non_discovery_v3 report_state_request)
              world0) as r eqn:E.
  vm_compute in E. subst r.
  eexists _, _. split; [reflexivity|]. split; [reflexivity|].
  exact (H _ _ eq_refl).
Defined.

(** ** Concrete runs *)

Example adjust_temperature_run :
  temperature (dev (snd (run model_handler
                           (lambda_handler adjust_temperature_request VNone)
                           world0)))
  = VFloat 23.
Proof. vm_compute. reflexivity. Qed.

Example set_mode_heat_run :
  mode (dev (snd (run model_handler
                    (lambda_handler (set_mode_request "HEAT") VNone) world0)))
  = VStr "HEAT".
Proof. vm_compute. reflexivity. Qed.

Example discover_run :
  exists endpoint w',
    run model_handler
        (lambda_handler (v3_request "Alexa.Discovery" "Discover" [] (VDict []))
                        VNone) world0
    = (Ok (VDict
         [ ("event", VDict
             [ ("header", VDict
                 [ ("namespace", VStr "Alexa.Discovery");
                   ("name", VStr "Discover.Response");
                   ("payloadVersion", VStr "3");
                   ("messageId", VStr "uuid-0") ]);
               ("payload", VDict [ ("endpoints", VList [endpoint]) ]) ]) ]),
       w') /\
    lookup "endpointId" endpoint = Some (VStr "endpoint-004") /\
    endpoint_shape 5 [ thermostat_controller_capability;
                       power_controller_capability;
                       temperature_sensor_capability ] "THERMOSTAT" endpoint.
Proof.
  eexists _, _. split; [vm_compute; reflexivity|].
  split; [reflexivity|].
  eexists. repeat split.
Qed.

(** An unknown v2 request name leaves [header] unbound. *)
Example unknown_v2_name_run :
  fst (run model_handler
         (lambda_handler
            (v2_request "Alexa.ConnectedHome.Control" "SetLockState" "2") VNone)
         world0)
  = Err (UnboundLocalError "header").
Proof. vm_compute. reflexivity. Qed.

(** * Further properties of the code *)

(** ** Looking up appliances and endpoints *)

Lemma get_appliance_by_appliance_id_in_found (appliances : list value)
      (appliance_id : string) (appliance : value) :
  get_appliance_by_appliance_id_in appliances appliance_id = Ret appliance ->
  appliance <> VNone ->
  exists before after,
    appliances = (before ++ appliance :: after)%list /\
    Forall (other_id appliance_id) before /\
    lookup "applianceId" appliance = Some (VStr appliance_id).
Proof.
  induction appliances as [|a rest IH]; simpl.
  - intros [= <-] Hn. contradiction.
  - rewrite getitem_spec. destruct (lookup "applianceId" a) as [v|] eqn:Ev;
      simpl; [|discriminate].
    destruct (eq_str v appliance_id) eqn:E.
    + intros [= <-] _. apply eq_str_true in E. subst v.
      exists [], rest. repeat split; [constructor | exact Ev].
    + intros H Hn. destruct (IH H Hn) as (before & after & -> & Hb & Hid).
      exists (a :: before), after. repeat split; [|exact Hid].
      constructor; [exists v; split; assumption | exact Hb].
Qed.

Lemma get_appliance_by_appliance_id_in_none (appliances : list value)
      (appliance_id : string) :
  get_appliance_by_appliance_id_in appliances appliance_id = Ret VNone <->
  Forall (other_id appliance_id) appliances.
Proof.
  induction appliances as [|a rest IH]; simpl.
  - split; [constructor | reflexivity].
  - rewrite getitem_spec. destruct (lookup "applianceId" a) as [v|] eqn:Ev; simpl.
    + destruct (eq_str v appliance_id) eqn:E.
      * split.
        -- intros [= ->]. discriminate Ev.
        -- intros H. inversion H as [|? ? (v' & Hv' & E') _]; subst.
           rewrite Ev in Hv'. injection Hv' as <-. congruence.
      * rewrite IH. split.
        -- intros H. constructor; [exists v; split; assumption | exact H].
        -- intros H. inversion H; assumption.
    + split; [discriminate|].
      intros H. inversion H as [|? ? (v' & Hv' & _) _]; subst.
      rewrite Ev in Hv'. discriminate.
Qed.

(** X1: [get_appliance_by_appliance_id], over any catalog, returns [None]
    exactly when every appliance carries an identifier other than the one
    asked for; any other result is the first appliance of the catalog whose
    identifier is the one asked for. *)
Theorem get_appliance_by_appliance_id_first_match (appliances : list value)
        (appliance_id : string) :
  (get_appliance_by_appliance_id_in appliances appliance_id = Ret VNone <->
   Forall (other_id appliance_id) appliances) /\
  (forall appliance,
     get_appliance_by_appliance_id_in appliances appliance_id = Ret appliance ->
     appliance <> VNone ->
     exists before after,
       appliances = (before ++ appliance :: after)%list /\
       Forall (other_id appliance_id) before /\
       lookup "applianceId" appliance = Some (VStr appliance_id)).
Proof.
  split.
  - apply get_appliance_by_appliance_id_in_none.
  - intros appliance. apply get_appliance_by_appliance_id_in_found.
Qed.

(** X2: an entry of the catalog without an "applianceId" stops the search
    with a KeyError when no earlier entry matches, even if a later entry
    would match. *)
Theorem get_appliance_by_appliance_id_missing_key
        (before after : list value) (d : list (string * value))
        (appliance_id : string) :
  Forall (other_id appliance_id) before ->
  assoc "applianceId" d = None ->
  get_appliance_by_appliance_id_in (before ++ VDict d :: after) appliance_id
  = Raise (KeyError "applianceId").
Proof.
  intros Hb Hd. induction Hb as [|a before (v & Hv & E) _ IH]; simpl.
  - rewrite Hd. reflexivity.
  - rewrite getitem_spec, Hv. simpl. rewrite E. exact IH.
Qed.

Lemma get_appliance_by_appliance_id_missing_key_witness :
  get_appliance_by_appliance_id_in
    (SAMPLE_APPLIANCES ++ VDict [("modelName", VStr "Lamp")] :: [sample_switch])
    "endpoint-001"
  = Raise (KeyError "applianceId").
Proof.
  apply (get_appliance_by_appliance_id_missing_key SAMPLE_APPLIANCES
           [sample_switch] [("modelName", VStr "Lamp")] "endpoint-001").
  - repeat constructor. exists (VStr "endpoint-004"). split; reflexivity.
  - reflexivity.
Defined.

Lemma get_endpoint_from_v2_appliance_id (appliance endpoint : value) :
  get_endpoint_from_v2_appliance appliance = Ret endpoint ->
  lookup "endpointId" endpoint = lookup "applianceId" appliance.
Proof.
  unfold get_endpoint_from_v2_appliance,
    get_display_categories_from_v2_appliance,
    get_capabilities_from_v2_appliance.
  rewrite !getitem_spec.
  destruct (lookup "applianceId" appliance); [simpl|discriminate].
  destruct (lookup "manufacturerName" appliance); [simpl|discriminate].
  destruct (lookup "friendlyName" appliance); [simpl|discriminate].
  destruct (lookup "friendlyDescription" appliance); [simpl|discriminate].
  destruct (lookup "additionalApplianceDetails" appliance); [simpl|discriminate].
  destruct (lookup "modelName" appliance); [simpl|discriminate].
  intros [= <-]. reflexivity.
Qed.

(** X3: [get_endpoint_by_endpoint_id], over any catalog, returns either
    [None] or an endpoint whose "endpointId" is the identifier asked for. *)
Theorem get_endpoint_by_endpoint_id_round_trip (appliances : list value)
        (endpoint_id : string) (endpoint : value) :
  get_endpoint_by_endpoint_id_in appliances endpoint_id = Ret endpoint ->
  endpoint = VNone \/ lookup "endpointId" endpoint = Some (VStr endpoint_id).
Proof.
  unfold get_endpoint_by_endpoint_id_in. intros H.
  destruct (get_appliance_by_appliance_id_in appliances endpoint_id)
    as [a|e|c k] eqn:Ea; simpl in H; try discriminate.
  destruct (truthy a) eqn:Et.
  - right. rewrite (get_endpoint_from_v2_appliance_id _ _ H).
    destruct (get_appliance_by_appliance_id_in_found _ _ _ Ea)
      as (_ & _ & _ & _ & Hid); [|exact Hid].
    intros ->. discriminate Et.
  - left. injection H as <-. reflexivity.
Qed.

Lemma get_endpoint_by_endpoint_id_round_trip_witness :
  exists endpoint,
    get_endpoint_by_endpoint_id "endpoint-004" = Ret endpoint /\
    (endpoint = VNone \/
     lookup "endpointId" endpoint = Some (VStr "endpoint-004")) /\
    endpoint <> VNone.
Proof.
  eexists. split; [reflexivity|]. split; [|discriminate].
  apply (get_endpoint_by_endpoint_id_round_trip SAMPLE_APPLIANCES "endpoint-004").
  reflexivity.
Defined.

(** X4: over a catalog whose appliances all carry the six keys the
    projection reads, [get_endpoint_by_endpoint_id] finds an endpoint for an
    identifier as soon as some appliance carries it, and returns [None] when
    none does. *)
Theorem get_endpoint_by_endpoint_id_finds (appliances : list value)
        (endpoint_id : string) :
  Forall (fun a => has_keys appliance_keys a = true) appliances ->
  (Exists (fun a => lookup "applianceId" a = Some (VStr endpoint_id)) appliances ->
   exists d, get_endpoint_by_endpoint_id_in appliances endpoint_id
             = Ret (VDict d) /\
             assoc "endpointId" d = Some (VStr endpoint_id)) /\
  (~ Exists (fun a => lookup "applianceId" a = Some (VStr endpoint_id)) appliances ->
   get_endpoint_by_endpoint_id_in appliances endpoint_id = Ret VNone).
Proof.
  intros Hk. unfold get_endpoint_by_endpoint_id_in. split.
  - intros Hex. induction Hk as [|a rest Ha Hrest IH]; [inversion Hex|].
    simpl. destruct (has_keys_lookup _ _ "applianceId" Ha) as [v Hv];
      [simpl; tauto|].
    rewrite getitem_spec, Hv. simpl.
    destruct (eq_str v endpoint_id) eqn:E.
    + simpl. apply eq_str_true in E. subst v.
      destruct (has_keys_lookup _ _ "modelName" Ha) as [m Hm];
        [simpl; tauto|].
      destruct (get_endpoint_from_v2_appliance_shape a m Ha Hm)
        as (endpoint & Hrun & (Hcaps & _)).
      assert (Ht : truthy a = true).
      { destruct a as [| | | | | |[|? ?]]; try discriminate Hv; reflexivity. }
      rewrite Ht, Hrun.
      pose proof (get_endpoint_from_v2_appliance_id _ _ Hrun) as Hid.
      rewrite Hv in Hid.
      destruct endpoint as [| | | | | |d]; try discriminate Hid.
      exists d. split; [reflexivity | exact Hid].
    + apply IH. inversion Hex as [? ? H0|? ? H0]; subst; [|exact H0].
      rewrite Hv in H0. injection H0 as ->.
      simpl in E. rewrite String.eqb_refl in E. discriminate.
  - intros Hno.
    assert (Hall : Forall (other_id endpoint_id) appliances).
    { induction Hk as [|a rest Ha Hrest IH]; constructor.
      - destruct (has_keys_lookup _ _ "applianceId" Ha) as [v Hv];
          [simpl; tauto|].
        exists v. split; [exact Hv|]. apply eq_str_false. intros ->.
        apply Hno. left. exact Hv.
      - apply IH. intros H. apply Hno. right. exact H. }
    apply get_appliance_by_appliance_id_in_none in Hall. rewrite Hall.
    reflexivity.
Qed.

Lemma get_endpoint_by_endpoint_id_finds_witness :
  get_endpoint_by_endpoint_id_in (sample_switch :: SAMPLE_APPLIANCES)
    "endpoint-999" = Ret VNone.
Proof.
  apply (get_endpoint_by_endpoint_id_finds (sample_switch :: SAMPLE_APPLIANCES)
           "endpoint-999").
  - repeat constructor.
  - intros H. repeat (inversion H as [? ? H0|? ? H0]; subst;
                      [discriminate H0|clear H; rename H0 into H]).
    inversion H.
Defined.

(** ** The projection, field by field *)

(** X5: the endpoint of an appliance has exactly seven entries, in this
    order: "endpointId", "manufacturerName", "friendlyName", "description",
    "displayCategories", "cookie", "capabilities"; the identifier, the
    manufacturer and the friendly name are copied, "friendlyDescription"
    becomes "description", "additionalApplianceDetails" becomes "cookie", and
    every other entry of the appliance is dropped. *)
Theorem get_endpoint_from_v2_appliance_fields
        (appliance a b c d e m : value) :
  lookup "applianceId" appliance = Some a ->
  lookup "manufacturerName" appliance = Some b ->
  lookup "friendlyName" appliance = Some c ->
  lookup "friendlyDescription" appliance = Some d ->
  lookup "additionalApplianceDetails" appliance = Some e ->
  lookup "modelName" appliance = Some m ->
  exists categories capabilities,
    get_display_categories_from_v2_appliance appliance = Ret categories /\
    get_capabilities_from_v2_appliance appliance = Ret capabilities /\
    get_endpoint_from_v2_appliance appliance =
    Ret (VDict [ ("endpointId", a);
                 ("manufacturerName", b);
                 ("friendlyName", c);
                 ("description", d);
                 ("displayCategories", categories);
                 ("cookie", e);
                 ("capabilities", capabilities) ]).
Proof.
  intros Ha Hb Hc Hd He Hm.
  unfold get_endpoint_from_v2_appliance,
    get_display_categories_from_v2_appliance,
    get_capabilities_from_v2_appliance.
  rewrite (getitem_some _ _ _ Ha), (getitem_some _ _ _ Hb),
    (getitem_some _ _ _ Hc), (getitem_some _ _ _ Hd),
    (getitem_some _ _ _ He), (getitem_some _ _ _ Hm).
  simpl. eexists _, _. repeat split.
Qed.

Lemma get_endpoint_from_v2_appliance_fields_witness :
  exists categories capabilities,
    get_display_categories_from_v2_appliance sample_switch = Ret categories /\
    get_capabilities_from_v2_appliance sample_switch = Ret capabilities /\
    get_endpoint_from_v2_appliance sample_switch =
    Ret (VDict [ ("endpointId", VStr "endpoint-001");
                 ("manufacturerName", VStr "Sample Manufacturer");
                 ("friendlyName", VStr "Switch");
                 ("description", VStr "A switch");
                 ("displayCategories", categories);
                 ("cookie", VDict []);
                 ("capabilities", capabilities) ]).
Proof.
  apply (get_endpoint_from_v2_appliance_fields sample_switch
           (VStr "endpoint-001") (VStr "Sample Manufacturer") (VStr "Switch")
           (VStr "A switch") (VDict []) (VStr "Smart Switch"));
    reflexivity.
Defined.

(** X6: the projection of a value that is not a dict raises TypeError; the
    projection of a dict raises KeyError for the first key it lacks among
    "applianceId", "manufacturerName", "friendlyName", "friendlyDescription",
    "additionalApplianceDetails", "modelName", in that order, and returns an
    endpoint when it lacks none. *)
Theorem get_endpoint_from_v2_appliance_errors (appliance : value) :
  match appliance with
  | VDict _ =>
      match first_missing appliance_keys appliance with
      | Some k => get_endpoint_from_v2_appliance appliance = Raise (KeyError k)
      | None => exists endpoint,
                  get_endpoint_from_v2_appliance appliance = Ret endpoint
      end
  | _ => get_endpoint_from_v2_appliance appliance = Raise TypeError
  end.
Proof.
  destruct appliance as [| | | | | |d]; try reflexivity.
  unfold first_missing, appliance_keys, get_endpoint_from_v2_appliance,
    get_display_categories_from_v2_appliance,
    get_capabilities_from_v2_appliance.
  cbn [find lookup getitem].
  destruct (assoc "applianceId" d); [cbn [bind]|reflexivity].
  destruct (assoc "manufacturerName" d); [cbn [bind]|reflexivity].
  destruct (assoc "friendlyName" d); [cbn [bind]|reflexivity].
  destruct (assoc "friendlyDescription" d); [cbn [bind]|reflexivity].
  destruct (assoc "additionalApplianceDetails" d); [cbn [bind]|reflexivity].
  destruct (assoc "modelName" d); [cbn [bind]|reflexivity].
  eexists. reflexivity.
Qed.

(** ** The v2 control handler *)

Lemma path_two (k1 k2 : string) (v x : value) :
  path [k1; k2] v = Some x ->
  exists y, lookup k1 v = Some y /\ lookup k2 y = Some x.
Proof.
  cbn [path]. destruct (lookup k1 v) as [y|]; [|discriminate].
  destruct (lookup k2 y) as [z|] eqn:E; intros H; [|discriminate H].
  injection H as ->. eauto.
Qed.

(** X7: a v2 "TurnOnRequest" or "TurnOffRequest" is confirmed without
    touching the device: the one call made is for the message identifier,
    and the response is the header (namespace Alexa.ConnectedHome.Control,
    name "TurnOnConfirmation" or "TurnOffConfirmation", payloadVersion "2",
    that identifier) with an empty payload. *)
Theorem handle_non_discovery_confirms (request : value)
        (name confirmation : string) :
  path ["header"; "name"] request = Some (VStr name) ->
  (name, confirmation) = ("TurnOnRequest", "TurnOnConfirmation") \/
  (name, confirmation) = ("TurnOffRequest", "TurnOffConfirmation") ->
  forall W (h : call -> W -> res value * W) w,
    trace h (handle_non_discovery request) w = [Uuid4Str] /\
    forall messageId w',
      h Uuid4Str w = (Ok messageId, w') ->
      run h (handle_non_discovery request) w =
      (Ok (VDict
             [ ("header", VDict
                  [ ("namespace", VStr "Alexa.ConnectedHome.Control");
                    ("name", VStr confirmation);
                    ("payloadVersion", VStr "2");
                    ("messageId", messageId) ]);
               ("payload", VDict []) ]), w').
Proof.
  intros Hn Hc W h w. unfold handle_non_discovery.
  apply path_two in Hn as (hd & Hh & Hn).
  rewrite (getitem_some _ _ _ Hh). cbn [bind].
  rewrite (getitem_some _ _ _ Hn). cbn [bind].
  destruct Hc as [[= -> ->]|[= -> ->]]; simpl;
    destruct (h Uuid4Str w) as [[u|e] w1]; simpl;
    (split; [reflexivity|]); intros messageId w' [= <- <-] || intros ? ? [=];
    reflexivity.
Qed.

Lemma handle_non_discovery_confirms_witness :
  run model_handler
      (handle_non_discovery
         (v2_request "Alexa.ConnectedHome.Control" "TurnOffRequest" "2"))
      world0
  = (Ok (VDict
           [ ("header", VDict
                [ ("namespace", VStr "Alexa.ConnectedHome.Control");
                  ("name", VStr "TurnOffConfirmation");
                  ("payloadVersion", VStr "2");
                  ("messageId", VStr "uuid-0") ]);
             ("payload", VDict []) ]),
     World (dev world0) (room world0) (now world0) 1).
Proof.
  apply (handle_non_discovery_confirms
           (v2_request "Alexa.ConnectedHome.Control" "TurnOffRequest" "2")
           "TurnOffRequest" "TurnOffConfirmation").
  - reflexivity.
  - right. reflexivity.
  - reflexivity.
Defined.

(** X8: a v2 request whose name is neither "TurnOnRequest" nor
    "TurnOffRequest" makes [handle_non_discovery] raise UnboundLocalError
    for [header], before any call is made. *)
Theorem handle_non_discovery_unbound_header (request name : value) :
  path ["header"; "name"] request = Some name ->
  name <> VStr "TurnOnRequest" ->
  name <> VStr "TurnOffRequest" ->
  handle_non_discovery request = Raise (UnboundLocalError "header").
Proof.
  intros Hn Hon Hoff. apply eq_str_false in Hon, Hoff.
  unfold handle_non_discovery.
  apply path_two in Hn as (hd & Hh & Hn).
  rewrite (getitem_some _ _ _ Hh). cbn [bind].
  rewrite (getitem_some _ _ _ Hn). cbn [bind].
  rewrite Hon, Hoff. reflexivity.
Qed.

Lemma handle_non_discovery_unbound_header_witness :
  handle_non_discovery
    (v2_request "Alexa.ConnectedHome.Control" "SetLockState" "2")
  = Raise (UnboundLocalError "header").
Proof.
  apply (handle_non_discovery_unbound_header
           (v2_request "Alexa.ConnectedHome.Control" "SetLockState" "2")
           (VStr "SetLockState"));
    [reflexivity | discriminate | discriminate].
Defined.

(** ** The entry point, once more *)

Section EntryRuns.
Context {W : Type}.
Variable h : call -> W -> res value * W.

(** With reliable collaborators the entry point passes on what the branch
    selected by the detected version returns or raises. *)
Lemma lambda_handler_passes_on (request context v : value) :
  reliable h ->
  get_directive_version request = Ret v ->
  forall w, exists w1,
    (forall response w2,
       run h (if eq_str v "3" then v3_branch request else v2_branch request) w1
         = (Ok response, w2) ->
       exists w3, run h (lambda_handler request context) w = (Ok response, w3)) /\
    (forall e w2,
       run h (if eq_str v "3" then v3_branch request else v2_branch request) w1
         = (Err e, w2) ->
       exists w3, run h (lambda_handler request context) w = (Err e, w3)).
Proof.
  intros Hr Hg w.
  destruct (run_ext_reliable h (LoggerInfo (LogStr "Directive:")) w Hr)
    as (x1 & w1 & E1).
  destruct (run_ext_reliable h (LoggerInfo (LogJson request)) w1 Hr)
    as (x2 & w2 & E2).
  exists w2. split.
  - intros response w3 Hrun.
    destruct (run_ext_reliable h (LoggerInfo (LogStr "Response:")) w3 Hr)
      as (x5 & w5 & E5).
    destruct (run_ext_reliable h (LoggerInfo (LogJson response)) w5 Hr)
      as (x6 & w6 & E6).
    exists w6. unfold lambda_handler. apply run_try_ok.
    rewrite Hg. rewrite run_bind, E1. rewrite run_bind, E2.
    cbn [bind]. rewrite run_bind, Hrun.
    rewrite run_bind, E5. rewrite run_bind, E6. reflexivity.
  - intros e w3 Hrun.
    assert (Hbody : run h
              (ext (LoggerInfo (LogStr "Directive:")) ;;;
               ext (LoggerInfo (LogJson request)) ;;;
               version <- get_directive_version request ;;
               response <-
                 (if eq_str version "3" then v3_branch request
                  else v2_branch request) ;;
               ext (LoggerInfo (LogStr "Response:")) ;;;
               ext (LoggerInfo (LogJson response)) ;;;
               Ret response) w = (Err e, w3)).
    { rewrite Hg. rewrite run_bind, E1. rewrite run_bind, E2.
      cbn [bind]. rewrite run_bind, Hrun. reflexivity. }
    unfold lambda_handler. rewrite (run_try_err h _ _ _ _ _ _ Hbody).
    destruct (is_ValueError e); [|eauto].
    destruct (run_ext_reliable h (LoggerError (LogExn e)) w3 Hr)
      as (x & w4 & E).
    exists w4. rewrite run_bind, E. reflexivity.
Qed.
End EntryRuns.

Lemma handle_discovery_v3_program (request : value) :
  exists endpoint,
    lookup "endpointId" endpoint = Some (VStr "endpoint-004") /\
    endpoint_shape 5 [ thermostat_controller_capability;
                       power_controller_capability;
                       temperature_sensor_capability ] "THERMOSTAT" endpoint /\
    handle_discovery_v3 request =
    (messageId <- get_uuid ;;
     Ret (VDict
       [ ("event", VDict
           [ ("header", VDict
               [ ("namespace", VStr "Alexa.Discovery");
                 ("name", VStr "Discover.Response");
                 ("payloadVersion", VStr "3");
                 ("messageId", messageId) ]);
             ("payload", VDict [ ("endpoints", VList [endpoint]) ]) ]) ])).
Proof.
  eexists. split; [|split]; [| |reflexivity]; [reflexivity|].
  eexists. repeat split.
Qed.

(** X9: every v3 request named "Discover", whatever its namespace, gets the
    discovery response when the collaborators are reliable: an event with
    header Alexa.Discovery/Discover.Response, no context block and exactly
    one endpoint, "endpoint-004" with its five capabilities; and whatever the
    collaborators reply, no call reaches the device or the sensor. *)
Theorem discover_by_name_alone (request context : value) :
  path ["directive"; "header"; "payloadVersion"] request = Some (VStr "3") ->
  path ["directive"; "header"; "name"] request = Some (VStr "Discover") ->
  forall W (h : call -> W -> res value * W) w,
    Forall no_device_call (trace h (lambda_handler request context) w) /\
    (reliable h ->
     exists response endpoint w',
       run h (lambda_handler request context) w = (Ok response, w') /\
       lookup "context" response = None /\
       path ["event"; "header"; "namespace"] response
         = Some (VStr "Alexa.Discovery") /\
       path ["event"; "header"; "name"] response
         = Some (VStr "Discover.Response") /\
       path ["event"; "payload"; "endpoints"] response
         = Some (VList [endpoint]) /\
       lookup "endpointId" endpoint = Some (VStr "endpoint-004") /\
       endpoint_shape 5 [ thermostat_controller_capability;
                          power_controller_capability;
                          temperature_sensor_capability ] "THERMOSTAT"
                      endpoint).
Proof.
  intros Hv Hn W h w.
  pose proof (get_directive_version_spec request) as Hg.
  unfold version_rule in Hg. rewrite Hv in Hg.
  destruct (handle_discovery_v3_program request) as (endpoint & Hid & Hsh & Hp).
  assert (Hb : v3_branch request =
               (ext v3_mark ;;; handle_discovery_v3 request)).
  { unfold v3_branch. rewrite (directive_header_some _ _ _ Hn). reflexivity. }
  split.
  - apply calls_only_trace.
    apply (lambda_handler_calls _ _ _ _ Hg); try reflexivity.
    change (eq_str (VStr "3") "3") with true. cbv iota. rewrite Hb, Hp.
    unfold get_uuid. calls_only_tac; reflexivity.
  - intros Hr.
    destruct (lambda_handler_passes_on h request context _ Hr Hg w)
      as (w1 & Hok & _).
    change (eq_str (VStr "3") "3") with true in Hok. cbv iota in Hok.
    destruct (run_ext_reliable h v3_mark w1 Hr) as (x & w2 & E).
    destruct (run_ext_reliable h Uuid4Str w2 Hr) as (u & w3 & Eu).
    destruct (Hok (VDict
       [ ("event", VDict
           [ ("header", VDict
               [ ("namespace", VStr "Alexa.Discovery");
                 ("name", VStr "Discover.Response");
                 ("payloadVersion", VStr "3");
                 ("messageId", u) ]);
             ("payload", VDict [ ("endpoints", VList [endpoint]) ]) ]) ]) w3)
      as (w4 & Hrun).
    { rewrite Hb, Hp. rewrite run_bind, E. unfold get_uuid.
      rewrite run_bind, Eu. reflexivity. }
    eexists _, endpoint, w4. split; [exact Hrun|].
    repeat split; assumption.
Qed.

Lemma discover_by_name_alone_witness :
  exists response endpoint w',
    run model_handler
        (lambda_handler (v3_request "Alexa.PowerController" "Discover" []
                                    (VDict [])) VNone) world0
      = (Ok response, w') /\
    path ["event"; "payload"; "endpoints"] response = Some (VList [endpoint]) /\
    lookup "endpointId" endpoint = Some (VStr "endpoint-004").
Proof.
  destruct (discover_by_name_alone
              (v3_request "Alexa.PowerController" "Discover" [] (VDict []))
              VNone eq_refl eq_refl _ model_handler world0) as [_ H].
  destruct (H model_handler_reliable)
    as (response & endpoint & w' & Hrun & _ & _ & _ & He & Hid & _).
  exists response, endpoint, w'. repeat split; assumption.
Defined.

(** X10: every request whose detected version is not "3" and whose top-level
    header has the namespace Alexa.ConnectedHome.Discovery, whatever its
    name, gets the v2 discovery response when the collaborators are
    reliable: header DiscoverAppliancesResponse with payloadVersion "2" and
    the whole catalog under "discoveredAppliances"; no call reaches the
    device or the sensor. *)
Theorem v2_discovery_by_namespace_alone (request context v : value) :
  get_directive_version request = Ret v ->
  v <> VStr "3" ->
  path ["header"; "namespace"] request
    = Some (VStr "Alexa.ConnectedHome.Discovery") ->
  forall W (h : call -> W -> res value * W) w,
    Forall no_device_call (trace h (lambda_handler request context) w) /\
    (reliable h ->
     exists messageId w',
       run h (lambda_handler request context) w =
       (Ok (VDict
              [ ("header", VDict
                   [ ("namespace", VStr "Alexa.ConnectedHome.Discovery");
                     ("name", VStr "DiscoverAppliancesResponse");
                     ("payloadVersion", VStr "2");
                     ("messageId", messageId) ]);
                ("payload", VDict
                   [ ("discoveredAppliances", VList SAMPLE_APPLIANCES) ]) ]),
        w')).
Proof.
  intros Hg Hv Hns W h w. apply eq_str_false in Hv.
  apply path_two in Hns as (hd & Hh & Hns).
  assert (Hb : v2_branch request = (ext v2_mark ;;; handle_discovery)).
  { unfold v2_branch.
    rewrite (getitem_some _ _ _ Hh). cbn [bind].
    rewrite (getitem_some _ _ _ Hns). reflexivity. }
  split.
  - apply calls_only_trace.
    apply (lambda_handler_calls _ _ _ _ Hg); try reflexivity.
    rewrite Hv, Hb. unfold handle_discovery, get_uuid.
    calls_only_tac; reflexivity.
  - intros Hr.
    destruct (lambda_handler_passes_on h request context _ Hr Hg w)
      as (w1 & Hok & _).
    rewrite Hv in Hok.
    destruct (run_ext_reliable h v2_mark w1 Hr) as (x & w2 & E).
    destruct (run_ext_reliable h Uuid4Str w2 Hr) as (u & w3 & Eu).
    exists u.
    apply Hok with (w2 := w3).
    rewrite Hb. rewrite run_bind, E. unfold handle_discovery, get_uuid.
    rewrite run_bind, Eu. reflexivity.
Qed.

Lemma v2_discovery_by_namespace_alone_witness :
  exists messageId w',
    run model_handler
        (lambda_handler
           (v2_request "Alexa.ConnectedHome.Discovery" "AnyName" "2") VNone)
        world0 =
    (Ok (VDict
           [ ("header", VDict
                [ ("namespace", VStr "Alexa.ConnectedHome.Discovery");
                  ("name", VStr "DiscoverAppliancesResponse");
                  ("payloadVersion", VStr "2");
                  ("messageId", messageId) ]);
             ("payload", VDict
                [ ("discoveredAppliances", VList SAMPLE_APPLIANCES) ]) ]),
     w').
Proof.
  apply (v2_discovery_by_namespace_alone
           (v2_request "Alexa.ConnectedHome.Discovery" "AnyName" "2") VNone
           (VStr "2")); [reflexivity | discriminate | reflexivity |].
  exact model_handler_reliable.
Defined.

(** X11: a request with neither version field is handled as v2; when it has
    no top-level "header" either, the entry point raises KeyError("header"),
    or TypeError when the request is not a dict, provided the logger
    answers. *)
Theorem versionless_request_is_v2 (request context : value) :
  path ["directive"; "header"; "payloadVersion"] request = None ->
  path ["header"; "payloadVersion"] request = None ->
  forall W (h : call -> W -> res value * W) w,
    reliable h ->
    In v2_mark (trace h (lambda_handler request context) w) /\
    (lookup "header" request = None ->
     exists w',
       run h (lambda_handler request context) w =
       (Err (match request with
             | VDict _ => KeyError "header"
             | _ => TypeError
             end), w')).
Proof.
  intros H3 H2 W h w Hr.
  pose proof (get_directive_version_spec request) as Hg.
  unfold version_rule in Hg. rewrite H3, H2 in Hg.
  split.
  - destruct (run_ext_reliable h (LoggerInfo (LogStr "Directive:")) w Hr)
      as (x1 & w1 & E1).
    destruct (run_ext_reliable h (LoggerInfo (LogJson request)) w1 Hr)
      as (x2 & w2 & E2).
    unfold lambda_handler. apply trace_try_in. rewrite Hg.
    rewrite trace_bind, E1. apply in_or_app; right.
    rewrite trace_bind, E2. apply in_or_app; right.
    cbn [bind]. rewrite trace_bind. apply in_or_app; left.
    change (eq_str (VStr "-1") "3") with false. cbv iota.
    unfold v2_branch. rewrite trace_bind. apply in_or_app; left.
    apply trace_ext_head.
  - intros Hh.
    destruct (lambda_handler_passes_on h request context _ Hr Hg w)
      as (w1 & _ & Herr).
    change (eq_str (VStr "-1") "3") with false in Herr. cbv iota in Herr.
    destruct (run_ext_reliable h v2_mark w1 Hr) as (x & w2 & E).
    apply Herr with (w2 := w2).
    unfold v2_branch. rewrite run_bind. fold v2_mark. rewrite E.
    rewrite (getitem_spec request "header"), Hh. reflexivity.
Qed.

Lemma versionless_request_is_v2_witness :
  exists w',
    run model_handler (lambda_handler (VDict []) VNone) world0
    = (Err (KeyError "header"), w').
Proof.
  destruct (versionless_request_is_v2 (VDict []) VNone eq_refl eq_refl
              _ model_handler world0 model_handler_reliable) as [_ H].
  exact (H eq_refl).
Defined.

(** ** Failures of the collaborators are never swallowed *)

Lemma replies_bind {W A B} (h : call -> W -> res value * W)
      (m : prog A) (f : A -> prog B) (w : W) :
  replies h (bind m f) w =
  (replies h m w ++
   match run h m w with
   | (Ok a, w') => replies h (f a) w'
   | (Err _, _) => []
   end)%list.
Proof.
  revert w. induction m as [a|e|c k IH]; intros w; simpl; try reflexivity.
  destruct (h c w) as [r w']. rewrite IH. reflexivity.
Qed.

Lemma careful_ret {A} (a : A) : careful (Ret a).
Proof. intros W h w x w' _. constructor. Qed.

Lemma careful_raise {A} (e : exn) : careful (@Raise A e).
Proof. intros W h w x w' _. constructor. Qed.

Lemma careful_ext (c : call) : careful (ext c).
Proof.
  intros W h w x w'. simpl. destruct (h c w) as [[v|e] w1]; simpl.
  - intros _. repeat constructor.
  - discriminate.
Qed.

Lemma careful_bind {A B} (m : prog A) (f : A -> prog B) :
  careful m -> (forall a, careful (f a)) -> careful (bind m f).
Proof.
  intros Hm Hf W h w b w' H.
  apply run_bind_ok in H as (a & w1 & Ha & Hb).
  rewrite replies_bind, Ha. apply Forall_app. split.
  - exact (Hm W h w a w1 Ha).
  - exact (Hf a W h w1 b w' Hb).
Qed.

Lemma careful_pure {A} (p : prog A) : pure p -> careful p.
Proof. intros [[a ->]|[e ->]]; [apply careful_ret | apply careful_raise]. Qed.

Lemma run_try_ok_inv {W A} (h : call -> W -> res value * W) (m : prog A)
      (catches : exn -> bool) (hd : exn -> prog A) (w w' : W) (a : A) :
  (forall e w1, is_error (fst (run h (hd e) w1)) = true) ->
  run h (try_except m catches hd) w = (Ok a, w') ->
  run h m w = (Ok a, w') /\
  replies h (try_except m catches hd) w = replies h m w.
Proof.
  intros Hh. revert w. induction m as [x|e|c k IH]; intros w; simpl.
  - intros H. split; [exact H | reflexivity].
  - destruct (catches e); [|discriminate].
    intros H. specialize (Hh e w). rewrite H in Hh. discriminate Hh.
  - destruct (h c w) as [r w1]. intros H.
    destruct (IH r w1 H) as [Hrun Hrep]. split; [exact Hrun|].
    rewrite Hrep. reflexivity.
Qed.

Lemma careful_try {A} (m : prog A) (catches : exn -> bool)
      (hd : exn -> prog A) :
  careful m ->
  (forall W (h : call -> W -> res value * W) e w,
     is_error (fst (run h (hd e) w)) = true) ->
  careful (try_except m catches hd).
Proof.
  intros Hm Hh W h w a w' H.
  destruct (run_try_ok_inv h m catches hd w w' a (Hh W h) H) as [Hrun Hrep].
  rewrite Hrep. exact (Hm W h w a w' Hrun).
Qed.

Ltac careful_step :=
  match goal with
  | |- careful (bind _ _) => apply careful_bind; [|intros ?]
  | |- careful (getitem _ _) => apply careful_pure, pure_getitem
  | |- careful (py_add _ _) => apply careful_pure, pure_py_add
  | |- careful (directive_header _ _) =>
      apply careful_pure, pure_directive_header
  | |- careful (directive_endpoint_id _) =>
      apply careful_pure, pure_directive_endpoint_id
  | |- careful (directive_payload _ _ _) =>
      apply careful_pure, pure_directive_payload
  | |- careful (ext _) => apply careful_ext
  | |- careful (Ret _) => apply careful_ret
  | |- careful (Raise _) => apply careful_raise
  | |- careful (if ?b then _ else _) => destruct b
  | |- careful (match ?x with Some _ => _ | None => _ end) => destruct x
  end.

Ltac careful_tac := repeat careful_step.

Lemma careful_handle_non_discovery_v3 (request : value) :
  careful (handle_non_discovery_v3 request).
Proof.
  unfold handle_non_discovery_v3, power_controller_response,
    thermostat_controller_action, thermostat_controller_response,
    state_report, accept_grant_response, event_block, property_state,
    celsius, get_utc_timestamp, get_uuid.
  careful_tac.
Qed.

Lemma careful_handle_discovery_v3 (request : value) :
  careful (handle_discovery_v3 request).
Proof.
  destruct (handle_discovery_v3_program request) as (endpoint & _ & _ & ->).
  unfold get_uuid. careful_tac.
Qed.

Lemma careful_handle_non_discovery (request : value) :
  careful (handle_non_discovery request).
Proof.
  unfold handle_non_discovery, confirmation_header, get_uuid. careful_tac.
Qed.

Lemma careful_handle_discovery : careful handle_discovery.
Proof. unfold handle_discovery, get_uuid. careful_tac. Qed.

(** X12: [lambda_handler] returns a response only if every call it made,
    to the device, the sensor, the clock, the identifier source and the
    logger, was answered: a failure of any of them is never swallowed. *)
Theorem lambda_handler_careful (request context : value) :
  careful (lambda_handler request context).
Proof.
  unfold lambda_handler. apply careful_try.
  - destruct (get_directive_version_total request) as [v ->].
    unfold v3_branch, v2_branch.
    careful_tac;
      auto using careful_handle_non_discovery_v3, careful_handle_discovery_v3,
        careful_handle_non_discovery, careful_handle_discovery.
  - intros W h e w. rewrite run_bind.
    destruct (run h (ext (LoggerError (LogExn e))) w) as [[x|e'] w1];
      reflexivity.
Qed.

(** X13: when the entry point raises an exception and the logger takes
    error lines, [logger.error] was called with that exception exactly when
    it is a ValueError; any other exception passes without an error line. *)
Theorem lambda_handler_reraises (request context : value) (e : exn) :
  forall W (h : call -> W -> res value * W) w,
    error_log_answers h ->
    fst (run h (lambda_handler request context) w) = Err e ->
    (In (LoggerError (LogExn e)) (trace h (lambda_handler request context) w)
     <-> is_ValueError e = true).
Proof.
  intros W h w Hr. unfold lambda_handler.
  set (body := (ext (LoggerInfo (LogStr "Directive:")) ;;;
                ext (LoggerInfo (LogJson request)) ;;;
                version <- get_directive_version request ;;
                response <-
                  (if eq_str version "3" then v3_branch request
                   else v2_branch request) ;;
                ext (LoggerInfo (LogStr "Response:")) ;;;
                ext (LoggerInfo (LogJson response)) ;;;
                Ret response)).
  set (hd := fun error : exn =>
               ext (LoggerError (LogExn error)) ;;; @Raise value error).
  assert (Hbody : calls_only (fun c => forall m, c <> LoggerError m) body).
  { unfold body. destruct (get_directive_version_total request) as [v ->].
    apply calls_only_bind; [apply calls_only_ext; discriminate|intros _].
    apply calls_only_bind; [apply calls_only_ext; discriminate|intros _].
    cbn [bind].
    apply calls_only_bind.
    - destruct (eq_str v "3").
      + apply (calls_only_weaken (fun c => c <> v2_mark /\ forall m, c <> LoggerError m)).
        * intros c [_ Hc]. exact Hc.
        * unfold v3_branch.
          apply calls_only_bind;
            [apply calls_only_ext; split; discriminate|intros _].
          apply calls_only_bind; [apply calls_only_directive_header|intros n].
          destruct (eq_str n "Discover").
          -- destruct (handle_discovery_v3_program request)
               as (endpoint & _ & _ & ->).
             unfold get_uuid. calls_only_tac; split; discriminate.
          -- unfold handle_non_discovery_v3, power_controller_response,
               thermostat_controller_action, thermostat_controller_response,
               state_report, accept_grant_response, event_block,
               property_state, celsius, get_utc_timestamp, get_uuid,
               directive_header, directive_endpoint_id, directive_payload.
             calls_only_tac; split; discriminate.
      + unfold v2_branch, handle_discovery, handle_non_discovery,
          confirmation_header, get_uuid.
        calls_only_tac; discriminate.
    - intros response.
      apply calls_only_bind; [apply calls_only_ext; discriminate|intros _].
      apply calls_only_bind; [apply calls_only_ext; discriminate|intros _].
      exact I. }
  assert (Htrace : forall (m : prog value) w0,
             calls_only (fun c => forall x, c <> LoggerError x) m ->
             fst (run h (try_except m is_ValueError hd) w0) = Err e ->
             (In (LoggerError (LogExn e))
                 (trace h (try_except m is_ValueError hd) w0)
              <-> is_ValueError e = true)).
  { induction m as [x|e0|c k IH]; intros w0 Hc; simpl.
    - discriminate.
    - destruct (is_ValueError e0) eqn:Ev; simpl.
      + pose proof (Hr (LogExn e0) w0) as Hl.
        destruct (h (LoggerError (LogExn e0)) w0) as [[x|e1] w1];
          simpl in *; [|discriminate Hl].
        intros [= <-]. split; [intros _; exact Ev | intros _; left; reflexivity].
      + intros [= <-]. split; [intros [] | rewrite Ev; discriminate].
    - destruct Hc as [Hc Hk]. destruct (h c w0) as [r w1]. simpl.
      intros He. rewrite <- (IH r w1 (Hk r) He). split.
      + intros [Hin|Hin]; [exfalso; exact (Hc _ Hin) | exact Hin].
      + intros Hin. right. exact Hin. }
  exact (Htrace body w Hbody).
Qed.

Lemma lambda_handler_reraises_witness :
  fst (run stuck_handler (lambda_handler turn_on_request VNone) world0)
    = Err (ValueError "remote not responding") /\
  In (LoggerError (LogExn (ValueError "remote not responding")))
     (trace stuck_handler (lambda_handler turn_on_request VNone) world0).
Proof.
  split; [reflexivity|].
  apply (lambda_handler_reraises turn_on_request VNone
           (ValueError "remote not responding") _ stuck_handler world0).
  - intros m w. reflexivity.
  - reflexivity.
  - reflexivity.
Defined.

(** ** Alexa.Authorization *)

Lemma handle_non_discovery_v3_accept_grant (request : value) :
  path ["directive"; "header"; "namespace"] request
    = Some (VStr "Alexa.Authorization") ->
  path ["directive"; "header"; "name"] request = Some (VStr "AcceptGrant") ->
  handle_non_discovery_v3 request =
  (code <- directive_payload request "grant" "code" ;;
   line <- py_add
             (VStr "====== AcceptGrant directive is called. Your authorization code is :")
             code ;;
   ext (PrintLine line) ;;;
   accept_grant_response).
Proof.
  intros Hns Hn. unfold handle_non_discovery_v3.
  rewrite (directive_header_some _ _ _ Hns), (directive_header_some _ _ _ Hn).
  reflexivity.
Qed.

(** X14: an Alexa.Authorization/AcceptGrant directive whose grant code is a
    string prints one line ending in that code as its first call, never
    reaches the device or the sensor, and is answered, whenever it is
    answered, with an event Alexa.Authorization/AcceptGrant.Response that has
    no context block, no correlation token and no endpoint; with reliable
    collaborators it is answered. *)
Theorem accept_grant_response_shape (request : value) (code : string) :
  path ["directive"; "header"; "namespace"] request
    = Some (VStr "Alexa.Authorization") ->
  path ["directive"; "header"; "name"] request = Some (VStr "AcceptGrant") ->
  path ["directive"; "payload"; "grant"; "code"] request = Some (VStr code) ->
  forall W (h : call -> W -> res value * W) w,
    hd_error (trace h (handle_non_discovery_v3 request) w)
      = Some (PrintLine (VStr
          ("====== AcceptGrant directive is called. Your authorization code is :"
           ++ code))) /\
    Forall no_device_call (trace h (handle_non_discovery_v3 request) w) /\
    (forall response w',
       run h (handle_non_discovery_v3 request) w = (Ok response, w') ->
       lookup "context" response = None /\
       path ["event"; "header"; "namespace"] response
         = Some (VStr "Alexa.Authorization") /\
       path ["event"; "header"; "name"] response
         = Some (VStr "AcceptGrant.Response") /\
       path ["event"; "header"; "correlationToken"] response = None /\
       path ["event"; "endpoint"] response = None) /\
    (reliable h ->
     exists response w',
       run h (handle_non_discovery_v3 request) w = (Ok response, w')).
Proof.
  intros Hns Hn Hc W h w.
  rewrite (handle_non_discovery_v3_accept_grant request Hns Hn).
  rewrite (directive_payload_some _ _ _ _ Hc). cbn [bind py_add].
  unfold accept_grant_response, get_uuid.
  repeat match goal with |- _ /\ _ => split end.
  - simpl. destruct (h _ w) as [r w1]. reflexivity.
  - apply calls_only_trace. calls_only_tac; reflexivity.
  - intros response w' H.
    apply run_bind_ok in H as (x & w1 & _ & H).
    apply run_bind_ok in H as (u & w2 & _ & H).
    apply run_ret_ok in H as [<- _]. repeat split.
  - intros Hr. apply run_bind_returns.
    destruct (run_ext_reliable h
                (PrintLine (VStr
                   ("====== AcceptGrant directive is called. Your authorization code is :"
                    ++ code))) w Hr) as (x & w1 & E).
    exists x, w1. split; [exact E|]. apply run_bind_returns.
    destruct (run_ext_reliable h Uuid4Str w1 Hr) as (u & w2 & Eu).
    exists u, w2. split; [exact Eu|]. simpl. eauto.
Qed.

Lemma accept_grant_response_shape_witness :
  hd_error (trace model_handler
              (handle_non_discovery_v3 (accept_grant_request (VStr "abc")))
              world0)
  = Some (PrintLine (VStr
      "====== AcceptGrant directive is called. Your authorization code is :abc")).
Proof.
  apply (accept_grant_response_shape (accept_grant_request (VStr "abc")) "abc");
    reflexivity.
Defined.

(** X15: an AcceptGrant directive whose grant code is present but is not a
    string raises TypeError before anything is printed or answered. *)
Theorem accept_grant_code_not_a_string (request code : value) :
  path ["directive"; "header"; "namespace"] request
    = Some (VStr "Alexa.Authorization") ->
  path ["directive"; "header"; "name"] request = Some (VStr "AcceptGrant") ->
  path ["directive"; "payload"; "grant"; "code"] request = Some code ->
  (forall s, code <> VStr s) ->
  handle_non_discovery_v3 request = Raise TypeError.
Proof.
  intros Hns Hn Hc Hs.
  rewrite (handle_non_discovery_v3_accept_grant request Hns Hn).
  rewrite (directive_payload_some _ _ _ _ Hc). cbn [bind].
  destruct code; try reflexivity. exfalso. exact (Hs s eq_refl).
Qed.

Lemma accept_grant_code_not_a_string_witness :
  handle_non_discovery_v3 (accept_grant_request (VInt 1234)) = Raise TypeError.
Proof.
  apply (accept_grant_code_not_a_string (accept_grant_request (VInt 1234))
           (VInt 1234)); [reflexivity | reflexivity | reflexivity |].
  intros s. discriminate.
Defined.

(** ** Alexa.ThermostatController, the mutations *)

Lemma directive_payload_none (request : value) (k1 k2 : string) :
  path ["directive"; "payload"; k1; k2] request = None ->
  exists e, directive_payload request k1 k2 = Raise e.
Proof.
  unfold directive_payload. cbn [path].
  rewrite (getitem_spec request "directive").
  destruct (lookup "directive" request) as [d|];
    [cbn [bind]|intros _; eexists; reflexivity].
  rewrite (getitem_spec d "payload").
  destruct (lookup "payload" d) as [p|];
    [cbn [bind]|intros _; eexists; reflexivity].
  rewrite (getitem_spec p k1).
  destruct (lookup k1 p) as [x|];
    [cbn [bind]|intros _; eexists; reflexivity].
  rewrite (getitem_spec x k2).
  destruct (lookup k2 x) as [y|];
    [discriminate|intros _; eexists; reflexivity].
Qed.

Lemma calls_only_response_only_setter (c : call) (request : value) :
  calls_only (only_setter c) (thermostat_controller_response request).
Proof.
  apply calls_only_thermostat_controller_response.
  unfold allows_reads, only_setter.
  repeat match goal with |- _ /\ _ => split end; intros; discriminate.
Qed.

(** X16: a SetTargetTemperature directive makes [set_temperature], with the
    payload's targetSetpoint value, the first call and the only setter
    called; against the test double the device then holds that value, its
    mode and power are untouched, and the response reports that value as
    targetSetpoint. *)
Theorem set_target_temperature_effect (request t : value) :
  path ["directive"; "header"; "namespace"] request
    = Some (VStr "Alexa.ThermostatController") ->
  path ["directive"; "header"; "name"] request
    = Some (VStr "SetTargetTemperature") ->
  path ["directive"; "payload"; "targetSetpoint"; "value"] request = Some t ->
  (forall W (h : call -> W -> res value * W) w,
     hd_error (trace h (handle_non_discovery_v3 request) w)
       = Some (AcSetTemperature t) /\
     Forall (only_setter (AcSetTemperature t))
            (trace h (handle_non_discovery_v3 request) w)) /\
  (forall w response w',
     run model_handler (handle_non_discovery_v3 request) w = (Ok response, w') ->
     dev w' = Device (power (dev w)) t (mode (dev w)) /\
     thermostat_snapshot (mode (dev w)) t (room w) response).
Proof.
  intros Hns Hn Ht.
  rewrite (handle_non_discovery_v3_thermostat request _ Hns Hn).
  unfold thermostat_controller_action.
  change (eq_str (VStr "SetTargetTemperature") "SetTargetTemperature") with true.
  cbv iota. rewrite (directive_payload_some _ _ _ _ Ht). cbn [bind].
  split.
  - intros W h w. split.
    + simpl. destruct (h (AcSetTemperature t) w) as [r w1]. reflexivity.
    + apply calls_only_trace.
      apply calls_only_bind;
        [|intros _; apply calls_only_response_only_setter].
      calls_only_tac. intros _. reflexivity.
  - intros w response w' H.
    apply run_bind_ok in H as (x & w1 & Ha & H).
    simpl in Ha. injection Ha as _ <-.
    pose proof (model_thermostat_controller_response _ _ _ _ H) as Hs.
    destruct (model_reads_keep_device (thermostat_controller_response request)
                (set_dev w (Device (power (dev w)) t (mode (dev w)))))
      as [Hd Hr];
      [apply calls_only_thermostat_controller_response, allows_reads_reads_only|].
    rewrite H in Hd, Hr. simpl in Hd, Hr. rewrite Hd, Hr in Hs.
    split; [exact Hd | exact Hs].
Qed.

Lemma set_target_temperature_effect_witness :
  hd_error (trace model_handler
              (handle_non_discovery_v3 set_temperature_request) world0)
  = Some (AcSetTemperature (VFloat 22.5)).
Proof.
  destruct (set_target_temperature_effect set_temperature_request
              (VFloat 22.5)) as [H _]; [reflexivity..|].
  apply H.
Defined.

(** X17: an AdjustTargetTemperature directive reads the current setpoint
    first.  When the remote answers [current] and [current] plus the
    payload's delta is [x], the second call is [set_temperature] with [x]
    and no other setter follows; when the two cannot be added, the error of
    the addition is raised and no setter is called.  Against the test double
    the device then holds [x], its mode and power are untouched, and the
    response reports [x] as targetSetpoint. *)
Theorem adjust_target_temperature_effect (request delta : value) :
  path ["directive"; "header"; "namespace"] request
    = Some (VStr "Alexa.ThermostatController") ->
  path ["directive"; "header"; "name"] request
    = Some (VStr "AdjustTargetTemperature") ->
  path ["directive"; "payload"; "targetSetpointDelta"; "value"] request
    = Some delta ->
  (forall W (h : call -> W -> res value * W) w current w1,
     h AcGetTemperature w = (Ok current, w1) ->
     (forall x,
        py_add current delta = Ret x ->
        exists rest,
          trace h (handle_non_discovery_v3 request) w
            = AcGetTemperature :: AcSetTemperature x :: rest /\
          Forall reads_only rest) /\
     (forall e,
        py_add current delta = Raise e ->
        trace h (handle_non_discovery_v3 request) w = [AcGetTemperature] /\
        run h (handle_non_discovery_v3 request) w = (Err e, w1))) /\
  (forall w x,
     py_add (temperature (dev w)) delta = Ret x ->
     forall response w',
       run model_handler (handle_non_discovery_v3 request) w
         = (Ok response, w') ->
       dev w' = Device (power (dev w)) x (mode (dev w)) /\
       thermostat_snapshot (mode (dev w)) x (room w) response).
Proof.
  intros Hns Hn Hd.
  rewrite (handle_non_discovery_v3_thermostat request _ Hns Hn).
  unfold thermostat_controller_action.
  change (eq_str (VStr "AdjustTargetTemperature") "SetTargetTemperature")
    with false.
  change (eq_str (VStr "AdjustTargetTemperature") "AdjustTargetTemperature")
    with true.
  cbv iota. rewrite (directive_payload_some _ _ _ _ Hd).
  split.
  - intros W h w current w1 Hh. split.
    + intros x Hx. cbn [trace run ext bind]. rewrite Hh.
      cbn [trace run ext bind]. rewrite Hx. cbn [trace run ext bind].
      destruct (h (AcSetTemperature x) w1) as [[v|e] w2];
        cbn [trace run ext bind].
      * eexists. split; [reflexivity|].
        apply calls_only_trace.
        apply calls_only_thermostat_controller_response,
          allows_reads_reads_only.
      * exists []. split; [reflexivity | constructor].
    + intros e He. cbn [trace run ext bind]. rewrite Hh.
      cbn [trace run ext bind]. rewrite He. cbn [trace run ext bind].
      split; reflexivity.
  - intros w x Hx response w' H.
    apply run_bind_ok in H as (u & w1 & Ha & H).
    simpl in Ha. rewrite Hx in Ha. simpl in Ha. injection Ha as _ <-.
    pose proof (model_thermostat_controller_response _ _ _ _ H) as Hs.
    destruct (model_reads_keep_device (thermostat_controller_response request)
                (set_dev w (Device (power (dev w)) x (mode (dev w)))))
      as [Hdev Hr];
      [apply calls_only_thermostat_controller_response, allows_reads_reads_only|].
    rewrite H in Hdev, Hr. simpl in Hdev, Hr. rewrite Hdev, Hr in Hs.
    split; [exact Hdev | exact Hs].
Qed.

Lemma adjust_target_temperature_effect_witness :
  exists response w',
    run model_handler (handle_non_discovery_v3 adjust_temperature_request)
        world0 = (Ok response, w') /\
    dev w' = Device (VStr "OFF") (VFloat 23) (VStr "COOL") /\
    thermostat_snapshot (VStr "COOL") (VFloat 23) (VFloat 27) response.
Proof.
  destruct (adjust_target_temperature_effect adjust_temperature_request
              (VInt (-2))) as (_ & H); [reflexivity..|].
  specialize (H world0 (VFloat 23) eq_refl).
  remember (run model_handler
              (handle_non_discovery_v3 adjust_temperature_request) world0)
    as r eqn:E.
  vm_compute in E. subst r.
  eexists _, _. split; [reflexivity|]. exact (H _ _ eq_refl).
Defined.

(** X18: a SetTargetTemperature, AdjustTargetTemperature or
    SetThermostatMode directive whose payload lacks the field it reads
    (targetSetpoint.value, targetSetpointDelta.value, thermostatMode.value)
    ends in an error without any setter having been called. *)
Theorem thermostat_directive_without_payload (request name : value)
        (field : string) :
  path ["directive"; "header"; "namespace"] request
    = Some (VStr "Alexa.ThermostatController") ->
  path ["directive"; "header"; "name"] request = Some name ->
  payload_field name = Some field ->
  path ["directive"; "payload"; field; "value"] request = None ->
  forall W (h : call -> W -> res value * W) w,
    Forall reads_only (trace h (handle_non_discovery_v3 request) w) /\
    is_error (fst (run h (handle_non_discovery_v3 request) w)) = true.
Proof.
  intros Hns Hn Hf Hp W h w.
  rewrite (handle_non_discovery_v3_thermostat request _ Hns Hn).
  destruct (directive_payload_none _ _ _ Hp) as [e He].
  unfold thermostat_controller_action, payload_field in *.
  destruct (eq_str name "SetTargetTemperature").
  { injection Hf as <-. rewrite He. split; [constructor | reflexivity]. }
  destruct (eq_str name "AdjustTargetTemperature").
  { injection Hf as <-. rewrite He. simpl.
    destruct (h AcGetTemperature w) as [[v|e'] w1]; simpl;
      split; repeat constructor. }
  destruct (eq_str name "SetThermostatMode"); [|discriminate].
  injection Hf as <-. rewrite He. split; [constructor | reflexivity].
Qed.

Lemma thermostat_directive_without_payload_witness :
  is_error
    (fst (run model_handler
            (handle_non_discovery_v3
               (v3_request "Alexa.ThermostatController"
                           "AdjustTargetTemperature" token_field (VDict [])))
            world0)) = true.
Proof.
  apply (thermostat_directive_without_payload
           (v3_request "Alexa.ThermostatController" "AdjustTargetTemperature"
                       token_field (VDict []))
           (VStr "AdjustTargetTemperature") "targetSetpointDelta");
    reflexivity.
Defined.

(** X19: an Alexa.ThermostatController directive with any other name calls
    no setter and is still answered with the three-property snapshot when
    the collaborators are reliable and the token and endpoint id are
    there. *)
Theorem thermostat_controller_other_names (request name : value) :
  path ["directive"; "header"; "namespace"] request
    = Some (VStr "Alexa.ThermostatController") ->
  path ["directive"; "header"; "name"] request = Some name ->
  payload_field name = None ->
  forall W (h : call -> W -> res value * W) w,
    Forall reads_only (trace h (handle_non_discovery_v3 request) w) /\
    (forall token endpointId,
       reliable h ->
       path ["directive"; "header"; "correlationToken"] request = Some token ->
       path ["directive"; "endpoint"; "endpointId"] request = Some endpointId ->
       exists response w' m t r,
         run h (handle_non_discovery_v3 request) w = (Ok response, w') /\
         thermostat_snapshot m t r response).
Proof.
  intros Hns Hn Hf W h w.
  destruct (thermostat_controller_snapshot_any_name request name Hns Hn)
    as (Hok & _ & Hret).
  assert (Ha : thermostat_controller_action request name = Ret tt).
  { unfold thermostat_controller_action, payload_field in *.
    destruct (eq_str name "SetTargetTemperature"); [discriminate|].
    destruct (eq_str name "AdjustTargetTemperature"); [discriminate|].
    destruct (eq_str name "SetThermostatMode"); [discriminate|reflexivity]. }
  split.
  - rewrite (handle_non_discovery_v3_thermostat request _ Hns Hn), Ha.
    apply calls_only_trace.
    apply calls_only_thermostat_controller_response, allows_reads_reads_only.
  - intros token endpointId Hr Ht He.
    destruct (Hret W h w w token endpointId Hr Ht He) as (response & w' & Hrun).
    { rewrite Ha. reflexivity. }
    destruct (Hok W h w response w' Hrun) as (m & t & r & Hs).
    exists response, w', m, t, r. split; assumption.
Qed.

Lemma thermostat_controller_other_names_witness :
  Forall reads_only
    (trace model_handler
       (handle_non_discovery_v3
          (v3_request "Alexa.ThermostatController" "ResumeSchedule"
                      token_field (VDict [])))
       world0).
Proof.
  apply (thermostat_controller_other_names
           (v3_request "Alexa.ThermostatController" "ResumeSchedule"
                       token_field (VDict []))
           (VStr "ResumeSchedule")); reflexivity.
Defined.

(** ** What a response repeats from its directive *)

Lemma run_event_block_ok {W} (h : call -> W -> res value * W)
      (request token endpointId : value) (name : string) (w w' : W)
      (event : value) :
  path ["directive"; "header"; "correlationToken"] request = Some token ->
  path ["directive"; "endpoint"; "endpointId"] request = Some endpointId ->
  run h (event_block request name) w = (Ok event, w') ->
  exists messageId,
    event = VDict
      [ ("header", VDict
          [ ("namespace", VStr "Alexa");
            ("name", VStr name);
            ("messageId", messageId);
            ("correlationToken", token);
            ("payloadVersion", VStr "3") ]);
        ("endpoint", VDict [ ("endpointId", endpointId) ]);
        ("payload", VDict []) ].
Proof.
  intros Ht He H. unfold event_block in H.
  apply run_bind_ok in H as (u & w1 & _ & H).
  rewrite (directive_header_some _ _ _ Ht),
    (directive_endpoint_id_some _ _ He) in H.
  simpl in H. injection H as <- _. eauto.
Qed.

(** X20: whenever a v3 directive of the namespaces Alexa.PowerController or
    Alexa.ThermostatController, or an Alexa/ReportState directive, is
    answered, the event repeats the directive's correlation token and
    endpoint id, has the namespace "Alexa" and payloadVersion "3", an empty
    payload, and the name "StateReport" for a state report and "Response"
    otherwise. *)
Theorem response_echoes_directive (request namespace name token endpointId : value) :
  path ["directive"; "header"; "namespace"] request = Some namespace ->
  path ["directive"; "header"; "name"] request = Some name ->
  path ["directive"; "header"; "correlationToken"] request = Some token ->
  path ["directive"; "endpoint"; "endpointId"] request = Some endpointId ->
  namespace = VStr "Alexa.PowerController" \/
  namespace = VStr "Alexa.ThermostatController" \/
  (namespace = VStr "Alexa" /\ name = VStr "ReportState") ->
  forall W (h : call -> W -> res value * W) w response w',
    run h (handle_non_discovery_v3 request) w = (Ok response, w') ->
    echoes token endpointId response /\
    path ["event"; "header"; "name"] response
      = Some (VStr (if eq_str namespace "Alexa" then "StateReport"
                    else "Response")).
Proof.
  intros Hns Hn Ht He Hcase W h w response w' H.
  destruct Hcase as [->|[->|[-> ->]]].
  - rewrite (handle_non_discovery_v3_power request _ Hns Hn) in H.
    assert (Hp : exists v x w0 w1,
               run h (ext x ;;; power_controller_response request v) w0
               = (Ok response, w1)).
    { destruct (eq_str name "TurnOn"); eauto. }
    destruct Hp as (v & x & w0 & w1 & Hp).
    apply run_bind_ok in Hp as (y & w2 & _ & Hp).
    unfold power_controller_response in Hp.
    apply run_bind_ok in Hp as (p & w3 & _ & Hp).
    apply run_bind_ok in Hp as (u & w4 & _ & Hp).
    rewrite (directive_header_some _ _ _ Ht),
      (directive_endpoint_id_some _ _ He) in Hp.
    simpl in Hp. injection Hp as <- _. repeat split.
  - rewrite (handle_non_discovery_v3_thermostat request _ Hns Hn) in H.
    apply run_bind_ok in H as (y & w1 & _ & H).
    unfold thermostat_controller_response in H.
    apply run_bind_ok in H as (event & w2 & Hev & H).
    apply run_bind_ok in H as (p1 & w3 & _ & H).
    apply run_bind_ok in H as (p2 & w4 & _ & H).
    apply run_bind_ok in H as (p3 & w5 & _ & H).
    apply run_ret_ok in H as [<- _].
    destruct (run_event_block_ok h _ _ _ _ _ _ _ Ht He Hev) as [u ->].
    repeat split.
  - rewrite (handle_non_discovery_v3_report request Hns Hn) in H.
    unfold state_report in H.
    apply run_bind_ok in H as (event & w2 & Hev & H).
    apply run_bind_ok in H as (p1 & w3 & _ & H).
    apply run_bind_ok in H as (p2 & w4 & _ & H).
    apply run_bind_ok in H as (p3 & w5 & _ & H).
    apply run_bind_ok in H as (p4 & w6 & _ & H).
    apply run_bind_ok in H as (p5 & w7 & _ & H).
    apply run_ret_ok in H as [<- _].
    destruct (run_event_block_ok h _ _ _ _ _ _ _ Ht He Hev) as [u ->].
    repeat split.
Qed.

Lemma response_echoes_directive_witness :
  exists response w',
    run model_handler (handle_non_discovery_v3 report_state_request) world0
      = (Ok response, w') /\
    echoes (VStr "tok-1") (VStr "endpoint-004") response /\
    path ["event"; "header"; "name"] response = Some (VStr "StateReport").
Proof.
  pose proof (response_echoes_directive report_state_request
                (VStr "Alexa") (VStr "ReportState") (VStr "tok-1")
                (VStr "endpoint-004") eq_refl eq_refl eq_refl eq_refl
                (or_intror (or_intror (conj eq_refl eq_refl)))
                _ model_handler world0) as H.
  remember (run model_handler (handle_non_discovery_v3 report_state_request)
              world0) as r eqn:E.
  vm_compute in E. subst r.
  eexists _, _. split; [reflexivity|]. exact (H _ _ eq_refl).
Defined.

(** ** Mutation before validation *)

Lemma directive_header_missing (request x : value) (k k' : string) :
  path ["directive"; "header"; k] request = Some x ->
  path ["directive"; "header"; k'] request = None ->
  directive_header request k' = Raise (KeyError k').
Proof.
  unfold directive_header. cbn [path].
  rewrite (getitem_spec request "directive").
  destruct (lookup "directive" request) as [d|]; [cbn [bind]|discriminate].
  rewrite (getitem_spec d "header").
  destruct (lookup "header" d) as [hd|]; [cbn [bind]|discriminate].
  rewrite (getitem_spec hd k').
  destruct hd as [| | | | | |items]; try discriminate.
  destruct (lookup k' (VDict items)); [intros _; discriminate|reflexivity].
Qed.

(** X21: an Alexa.PowerController directive without a correlation token
    still switches the device: with reliable collaborators [set_power_on]
    (for "TurnOn") or [set_power_off] (for any other name) is called, and
    only then the handler raises KeyError("correlationToken"); the test
    double's device ends up switched although no response is produced. *)
Theorem power_controller_switches_before_failing (request name : value) :
  path ["directive"; "header"; "namespace"] request
    = Some (VStr "Alexa.PowerController") ->
  path ["directive"; "header"; "name"] request = Some name ->
  path ["directive"; "header"; "correlationToken"] request = None ->
  (forall W (h : call -> W -> res value * W) w,
     reliable h ->
     hd_error (trace h (handle_non_discovery_v3 request) w)
       = Some (if eq_str name "TurnOn" then AcSetPowerOn else AcSetPowerOff) /\
     fst (run h (handle_non_discovery_v3 request) w)
       = Err (KeyError "correlationToken")) /\
  (forall w,
     power (dev (snd (run model_handler (handle_non_discovery_v3 request) w)))
     = VStr (if eq_str name "TurnOn" then "ON" else "OFF")).
Proof.
  intros Hns Hn Ht.
  rewrite (handle_non_discovery_v3_power request _ Hns Hn).
  pose proof (directive_header_missing _ _ _ _ Hn Ht) as Hm.
  assert (Hresp : forall W (h : call -> W -> res value * W) w v,
             reliable h ->
             fst (run h (power_controller_response request v) w)
             = Err (KeyError "correlationToken")).
  { intros W h w v Hr. unfold power_controller_response, get_uuid.
    destruct (run_property_state_returns h Hr "Alexa.PowerController"
                "powerState" (Ret (VStr v)) w) as (p & w1 & Ep);
      [simpl; eauto|].
    rewrite run_bind, Ep.
    destruct (run_ext_reliable h Uuid4Str w1 Hr) as (u & w2 & Eu).
    rewrite run_bind, Eu. rewrite Hm. reflexivity. }
  split.
  - intros W h w Hr. split.
    + destruct (eq_str name "TurnOn"); simpl;
        destruct (h _ w) as [r w1]; reflexivity.
    + destruct (eq_str name "TurnOn"); rewrite run_bind.
      * destruct (run_ext_reliable h AcSetPowerOn w Hr) as (x & w1 & ->).
        apply Hresp, Hr.
      * destruct (run_ext_reliable h AcSetPowerOff w Hr) as (x & w1 & ->).
        apply Hresp, Hr.
  - intros w. destruct (eq_str name "TurnOn"); rewrite run_bind.
    + change (run model_handler (ext AcSetPowerOn) w)
        with (Ok VNone,
              set_dev w (Device (VStr "ON") (temperature (dev w))
                                (mode (dev w)))).
      cbv iota.
      destruct (model_reads_keep_device
                  (power_controller_response request "ON")
                  (set_dev w (Device (VStr "ON") (temperature (dev w))
                                     (mode (dev w))))) as [Hd _];
        [apply calls_only_power_controller_response, allows_reads_reads_only|].
      rewrite Hd. reflexivity.
    + change (run model_handler (ext AcSetPowerOff) w)
        with (Ok VNone,
              set_dev w (Device (VStr "OFF") (temperature (dev w))
                                (mode (dev w)))).
      cbv iota.
      destruct (model_reads_keep_device
                  (power_controller_response request "OFF")
                  (set_dev w (Device (VStr "OFF") (temperature (dev w))
                                     (mode (dev w))))) as [Hd _];
        [apply calls_only_power_controller_response, allows_reads_reads_only|].
      rewrite Hd. reflexivity.
Qed.

Lemma power_controller_switches_before_failing_witness :
  fst (run model_handler (handle_non_discovery_v3 bare_turn_on_request) world0)
    = Err (KeyError "correlationToken") /\
  power (dev (snd (run model_handler
                     (handle_non_discovery_v3 bare_turn_on_request) world0)))
    = VStr "ON".
Proof.
  destruct (power_controller_switches_before_failing bare_turn_on_request
              (VStr "TurnOn")) as [H1 H2]; [reflexivity..|].
  split.
  - apply (H1 _ model_handler world0 model_handler_reliable).
  - apply (H2 world0).
Defined.

(** ** Alexa.ThermostatController, the mode *)

(** X22: against the test double a SetThermostatMode directive with payload
    value "HEAT" or "COOL" leaves the device in that mode with its power and
    setpoint untouched, and the response reports that mode as
    thermostatMode. *)
Theorem set_thermostat_mode_stores (request : value) (m : string) :
  path ["directive"; "header"; "namespace"] request
    = Some (VStr "Alexa.ThermostatController") ->
  path ["directive"; "header"; "name"] request
    = Some (VStr "SetThermostatMode") ->
  path ["directive"; "payload"; "thermostatMode"; "value"] request
    = Some (VStr m) ->
  m = "HEAT" \/ m = "COOL" ->
  forall w response w',
    run model_handler (handle_non_discovery_v3 request) w = (Ok response, w') ->
    dev w' = Device (power (dev w)) (temperature (dev w)) (VStr m) /\
    thermostat_snapshot (VStr m) (temperature (dev w)) (room w) response.
Proof.
  intros Hns Hn Hm Hcase w response w' H.
  rewrite (set_thermostat_mode_program request _ Hns Hn Hm) in H.
  apply run_bind_ok in H as (x & w1 & Ha & H).
  assert (Hw1 : w1 = set_dev w (Device (power (dev w)) (temperature (dev w))
                                       (VStr m))).
  { destruct Hcase as [->| ->]; simpl in Ha; injection Ha as _ <-;
      reflexivity. }
  subst w1.
  pose proof (model_thermostat_controller_response _ _ _ _ H) as Hs.
  destruct (model_reads_keep_device (thermostat_controller_response request)
              (set_dev w (Device (power (dev w)) (temperature (dev w))
                                 (VStr m)))) as [Hd Hr];
    [apply calls_only_thermostat_controller_response, allows_reads_reads_only|].
  rewrite H in Hd, Hr. simpl in Hd, Hr. rewrite Hd, Hr in Hs.
  split; [exact Hd | exact Hs].
Qed.

Lemma set_thermostat_mode_stores_witness :
  exists response w',
    run model_handler (handle_non_discovery_v3 (set_mode_request "HEAT"))
        world0 = (Ok response, w') /\
    dev w' = Device (VStr "OFF") (VFloat 25) (VStr "HEAT") /\
    thermostat_snapshot (VStr "HEAT") (VFloat 25) (VFloat 27) response.
Proof.
  pose proof (set_thermostat_mode_stores (set_mode_request "HEAT") "HEAT"
                eq_refl eq_refl eq_refl (or_introl eq_refl) world0) as H.
  remember (run model_handler (handle_non_discovery_v3 (set_mode_request "HEAT"))
              world0) as r eqn:E.
  vm_compute in E. subst r.
  eexists _, _. split; [reflexivity|]. exact (H _ _ eq_refl).
Defined.
